(** * inks.py: unit-carrying values, the material catalog and the
      derived-quantity pipeline of the 2D plots

    A shallow embedding of [src/inks.py].  Python floats are modelled as
    exact rationals ([Q]): rounding, overflow, infinities and NaN of IEEE
    arithmetic are outside the model, and equality of magnitudes is [Qeq].
    Division of magnitudes is the total division of [Q] ([x / 0 = 0]):
    where the program divides by a zero thickness numpy yields an
    infinity or a NaN, which a rational cannot hold, so every statement
    about a derived value carries the hypothesis that no divisor is zero.
    [Trace.__init__], which divides Python numbers, raises
    ZeroDivisionError for a zero width, and so does its model.
    The external libraries are modelled by what the program uses of them:
    pint (quantities with units), numpy ([full], [linspace], [log10]),
    the [statistics] module and the matplotlib axes, which is a sink that
    records the calls it receives.  [Plot3D] and
    [Plot2D.bulk_resistivity] are not modelled. *)

From Stdlib Require Import ZArith QArith Qabs Lqa Lia List String.
From stdpp Require Import base option list gmap strings.
Import ListNotations.

(** ** Outcomes of a Python call *)

Inductive exn : Type :=
  | DimensionalityError   (* pint: conversion between incompatible units *)
  | StatisticsError       (* statistics: too few data points *)
  | ValueError            (* min()/max() of an empty sequence *)
  | ZeroDivisionError     (* a Python number divided by zero *)
  | UnboundLocalError.    (* a loop variable read after a loop that never ran *)

Inductive result (A : Type) : Type :=
  | Ok (a : A)
  | Raised (e : exn)
  | SysExit (code : Z).
Arguments Ok {A} a.
Arguments Raised {A} e.
Arguments SysExit {A} code.

Definition result_bind {A B} (r : result A) (k : A -> result B) : result B :=
  match r with
  | Ok a => k a
  | Raised e => Raised e
  | SysExit c => SysExit c
  end.

Definition result_map {A B} (f : A -> B) (r : result A) : result B :=
  result_bind r (fun a => Ok (f a)).

(** ** pint: quantities with units

    A unit is its factor to the base units together with the exponents of
    the two dimensions the program uses, resistance and length. *)

Module pint.
Local Open Scope Q_scope.

Record Unit : Type := mkUnit {
  factor : Q;
  ohm_exp : Z;
  length_exp : Z
}.

Record Quantity : Type := mkQuantity {
  magnitude : Q;
  units : Unit
}.

Definition unit_mul (a b : Unit) : Unit :=
  {| factor := factor a * factor b;
     ohm_exp := (ohm_exp a + ohm_exp b)%Z;
     length_exp := (length_exp a + length_exp b)%Z |}.

Definition unit_div (a b : Unit) : Unit :=
  {| factor := factor a / factor b;
     ohm_exp := (ohm_exp a - ohm_exp b)%Z;
     length_exp := (length_exp a - length_exp b)%Z |}.

Definition same_dimension (a b : Unit) : bool :=
  ((ohm_exp a =? ohm_exp b)%Z && (length_exp a =? length_exp b)%Z)%bool.

Definition dimensionless (a : Unit) : Prop :=
  ohm_exp a = 0%Z /\ length_exp a = 0%Z.

(** [x * unit] *)
Definition of_unit (x : Q) (un : Unit) : Quantity :=
  {| magnitude := x; units := un |}.

(** [x * quantity], the scalar on the left *)
Definition rmul (x : Q) (q : Quantity) : Quantity :=
  {| magnitude := x * magnitude q; units := units q |}.

(** [quantity * unit] *)
Definition mul_unit (q : Quantity) (un : Unit) : Quantity :=
  {| magnitude := magnitude q; units := unit_mul (units q) un |}.

Definition mul (a b : Quantity) : Quantity :=
  {| magnitude := magnitude a * magnitude b;
     units := unit_mul (units a) (units b) |}.

Definition div (a b : Quantity) : Quantity :=
  {| magnitude := magnitude a / magnitude b;
     units := unit_div (units a) (units b) |}.

(** The rescaled quantity that a conversion yields. *)
Definition convert (q : Quantity) (target : Unit) : Quantity :=
  {| magnitude := magnitude q * (factor (units q) / factor target);
     units := target |}.

(** [quantity.to(target)] *)
Definition to (q : Quantity) (target : Unit) : result Quantity :=
  if same_dimension (units q) target
  then Ok (convert q target)
  else Raised DimensionalityError.

(** The units of the registry that the program names. *)
Definition ohm : Unit := mkUnit 1 1 0.
Definition mohm : Unit := mkUnit (1 # 1000) 1 0.
Definition uohm : Unit := mkUnit (1 # 1000000) 1 0.
Definition cm : Unit := mkUnit (1 # 100) 0 1.
Definition mm : Unit := mkUnit (1 # 1000) 0 1.
Definition micron : Unit := mkUnit (1 # 1000000) 0 1.
Definition inch : Unit := mkUnit (254 # 10000) 0 1.
Definition milliinch : Unit := mkUnit (254 # 10000000) 0 1.
End pint.

Local Open Scope Q_scope.

Definition symOmega : string := "Ω".
Definition symMu : string := "μ".
Definition symDot : string := "·".

Definition plus_or_minus (value tolerance : Q) : Q * Q * Q :=
  (value, value + tolerance, value - tolerance).

(** ** class Value *)

Record Value : Type := mkValue {
  value : pint.Quantity;
  valmin : pint.Quantity;
  valmax : pint.Quantity;
  units : pint.Quantity
}.

(** [Value.__init__(self, units, val1, val2=None, val3=None)] *)
Definition Value_init (units : pint.Quantity) (val1 : Q)
    (val2 val3 : option Q) : Value :=
  let simplest :=
    {| value := pint.rmul val1 units;
       valmin := pint.rmul val1 units;
       valmax := pint.rmul val1 units;
       units := units |} in
  match val2 with
  | None => simplest
  | Some v2 =>
      match val3 with
      | Some v3 =>
          {| value := value simplest;
             valmin := pint.rmul v2 units;
             valmax := pint.rmul v3 units;
             units := units |}
      | None =>
          {| value := pint.rmul (0.5 * (val1 + v2)) units;
             valmin := pint.rmul val1 units;
             valmax := pint.rmul v2 units;
             units := units |}
      end
  end.

(** [Value(units, *t)] for a triple [t] *)
Definition Value_star (units : pint.Quantity) (t : Q * Q * Q) : Value :=
  let '(a, b, c) := t in Value_init units a (Some b) (Some c).

(** ** class Category(IntEnum) *)

Inductive Category : Type :=
  metal | flexo | inkjet | screen | aerosol | carbon.

Definition Category_int (c : Category) : Z :=
  match c with
  | metal => 1 | flexo => 2 | inkjet => 3
  | screen => 4 | aerosol => 5 | carbon => 6
  end%Z.

Definition Category_of_int (z : Z) : option Category :=
  match z with
  | 1 => Some metal | 2 => Some flexo | 3 => Some inkjet
  | 4 => Some screen | 5 => Some aerosol | 6 => Some carbon
  | _ => None
  end%Z.

#[global] Instance Category_eq_dec : EqDecision Category.
Proof. solve_decision. Defined.

#[global] Program Instance Category_countable : Countable Category :=
  inj_countable Category_int Category_of_int _.
Next Obligation. by intros []. Qed.

Definition Catname (c : Category) : string :=
  match c with
  | metal => "metal" | flexo => "flexo" | inkjet => "inkjet"
  | screen => "screen" | aerosol => "aerosol" | carbon => "carbon"
  end.

(** ** PCB copper weights *)

Record PCB_weight : Type := mkPCB_weight {
  weight : Q;
  microns : Q;
  mils : Q
}.

Definition pcb_weights : list PCB_weight :=
  [ mkPCB_weight 0.5 17.4 0.7;
    mkPCB_weight 1.0 34.8 1.4;
    mkPCB_weight 2.0 69.6 2.8;
    mkPCB_weight 4.0 139.2 5.6 ].

(** ** class Trace

    The fields [length], [width] and [thickness] carry the prefix [trace_]:
    the bare names are taken by lists and by [Material]. *)

Record Trace : Type := mkTrace {
  trace_length : pint.Quantity;
  trace_width : pint.Quantity;
  trace_thickness : pint.Quantity;
  area : pint.Quantity;
  squares : pint.Quantity
}.

(** The object [Trace.__init__] leaves when its division succeeds. *)
Definition Trace_fields (length width thickness : pint.Quantity) : Trace :=
  {| trace_length := length;
     trace_width := width;
     trace_thickness := thickness;
     area := pint.mul length width;
     squares := pint.div length width |}.

(** [Trace.__init__]: [self.length / self.width] divides the two Python
    magnitudes and raises ZeroDivisionError when the width is zero. *)
Definition Trace_init (length width thickness : pint.Quantity)
    : result Trace :=
  if Qeq_bool (pint.magnitude width) 0 then Raised ZeroDivisionError
  else Ok (Trace_fields length width thickness).

(** ** class Material

    [Material.index] is a dictionary shared by all instances; it is
    threaded through the constructor as explicit state.  Every row of
    the table gives a thickness, so the field is not optional here. *)

Record Material : Type := mkMaterial {
  cat : Category;
  name : string;
  r_bulk : Value;
  r_sheet : option Value;
  thickness : Value;
  index : Z
}.

Definition catfactor : Z := 20.
Definition catstep : Z := 1.

Definition indexer (cat : Category) (idx : gmap Category Z)
    : Z * gmap Category Z :=
  let idx' :=
    match idx !! cat with
    | Some i => <[cat := (i + catstep)%Z]> idx
    | None => <[cat := (catfactor * Category_int cat)%Z]> idx
    end in
  (default 0%Z (idx' !! cat), idx').

Definition Material_init (cat : Category) (name : string) (r_bulk : Value)
    (thickness : Value) (r_sheet : option Value) (idx : gmap Category Z)
    : Material * gmap Category Z :=
  let '(i, idx') := indexer cat idx in
  ({| cat := cat; name := name; r_bulk := r_bulk; r_sheet := r_sheet;
      thickness := thickness; index := i |}, idx').

Definition BR : pint.Quantity :=
  pint.mul_unit (pint.of_unit 1 pint.uohm) pint.cm.
Definition SR : pint.Quantity := pint.of_unit 1 pint.mohm.
Definition TH : pint.Quantity := pint.of_unit 1 pint.micron.

(** ** The data table

    The list literal [matls] runs the constructors from top to bottom, so
    the shared counter is threaded through the rows in that order. *)

Record row : Type := mkRow {
  row_cat : Category;
  row_name : string;
  row_r_bulk : Value;
  row_thickness : Value
}.

Definition V (units : pint.Quantity) (val1 val2 val3 : Q) : Value :=
  Value_init units val1 (Some val2) (Some val3).
Definition PM := plus_or_minus.

Definition metal_row (name : string) (bulk : Q) : row :=
  mkRow metal name (Value_star BR (PM bulk 0.1)) (V TH 34.8 17.4 69.6).

Definition table : list row :=
  [ metal_row "silver" 1.60;
    metal_row "copper" 1.70;
    metal_row "gold" 2.40;
    metal_row "aluminium" 2.80;
    metal_row "zinc" 5.50;
    metal_row "nickel" 7.00;
    metal_row "brass" 7.50;
    metal_row "platinum" 9.80;
    metal_row "iron" 10.00;
    metal_row "tin" 11.00;
    metal_row "lead" 19.00;

    mkRow flexo "pfi-500" (V BR 8.00 7.00 9.00) (V TH 0.510 0.120 0.900);
    mkRow flexo "pfi-600" (V BR 6.00 5.00 7.00) (V TH 0.770 0.140 1.400);
    mkRow flexo "pfi-722" (V BR 6.00 5.00 7.00) (V TH 0.770 0.140 1.400);
    mkRow flexo "pfi-rsa6004" (V BR 11.00 10.00 12.00) (V TH 0.303 0.125 0.480);
    mkRow flexo "pfi-rsa6012" (V BR 9.00 8.00 10.00) (V TH 0.315 0.130 0.500);

    mkRow inkjet "ci-004" (V BR 12.00 12.00 12.00) (V TH 1.000 0.200 2.000);
    mkRow inkjet "ci-005" (V BR 9.00 9.00 9.00) (V TH 1.000 0.200 2.000);
    mkRow inkjet "ici-002hv" (V BR 9.15 7.50 10.80) (V TH 1.000 0.200 2.000);
    mkRow inkjet "js-a101a" (V BR 19.40 7.80 31.00) (V TH 1.000 0.200 2.000);
    mkRow inkjet "js-a102a" (V BR 19.40 7.80 31.00) (V TH 1.000 0.200 2.000);
    mkRow inkjet "js-a191" (V BR 19.40 7.80 31.00) (V TH 1.000 0.200 2.000);
    mkRow inkjet "js-b25hv" (V BR 2.80 2.80 2.80) (V TH 1.000 0.200 2.000);

    mkRow screen "cp-007" (V BR 17.50 17.50 17.50) (V TH 15.0 5.0 30.0);
    mkRow screen "cp-008" (V BR 25.00 25.00 25.00) (V TH 15.0 5.0 30.0);
    mkRow screen "cp-009" (V BR 25.00 25.00 25.00) (V TH 15.0 5.0 30.0);
    mkRow screen "hps-021lv" (V BR 10.00 10.00 10.00) (V TH 15.0 5.0 30.0);
    mkRow screen "hps-fg32" (V BR 17.50 11.00 24.00) (V TH 15.0 5.0 30.0);
    mkRow screen "hps-fg57b" (V BR 19.00 22.00 27.00) (V TH 15.0 5.0 30.0);
    mkRow screen "ici-021" (V BR 50.00 50.00 50.00) (V TH 15.0 5.0 30.0);
    mkRow screen "psi-211" (V BR 9.00 9.00 9.00) (V TH 15.0 5.0 30.0);
    mkRow screen "psi-219" (V BR 11.00 11.00 11.00) (V TH 15.0 5.0 30.0);

    mkRow aerosol "ci-006" (V BR 5.10 3.40 6.80) (V TH 2.00 1.00 5.00);
    mkRow aerosol "pspi-1000" (V BR 8.50 8.50 8.50) (V TH 2.00 1.00 5.00);

    mkRow carbon "jr-700lv" (V BR 1.200e6 1.100e6 1.300e6) (V TH 1.000 0.200 2.000);
    mkRow carbon "jr-700hv" (V BR 0.550e6 0.520e6 0.850e6) (V TH 1.000 0.200 2.000);
    mkRow carbon "hpr-059" (V BR 0.762e6 0.698e6 0.889e6) (V TH 20.000 5.000 50.000) ].

Fixpoint build (rows : list row) (idx : gmap Category Z)
    : list Material * gmap Category Z :=
  match rows with
  | [] => ([], idx)
  | r :: rows' =>
      let '(m, idx1) :=
        Material_init (row_cat r) (row_name r) (row_r_bulk r)
                      (row_thickness r) None idx in
      let '(ms, idx2) := build rows' idx1 in
      (m :: ms, idx2)
  end.

Definition matls : list Material := fst (build table ∅).

(** [{ x.name:x for x in matls }]: a later material of the same name
    would replace an earlier one. *)
Definition byname : gmap string Material :=
  list_to_map (map (fun x => (name x, x)) (rev matls)).

(** [[ byname[n], ... ]] for names that are in the catalog. *)
Definition lookup_all (names : list string) : list Material :=
  omap (fun n => byname !! n) names.

Definition bymetals : list Material := lookup_all ["silver"; "copper"; "gold"].
Definition bycopper : list Material := lookup_all ["copper"].

Definition by_category (c : Category) : list Material :=
  filter (fun x => cat x = c) matls.

Definition byflexo := by_category flexo.
Definition byinkjet := by_category inkjet.
Definition byscreen := by_category screen.
Definition byaerosol := by_category aerosol.
Definition bycarbon := by_category carbon.

(** ** Sheet resistance

    For [th = 0] the program has no rational result (an infinity or a
    NaN for a numpy zero, ZeroDivisionError for a Python zero); the value
    the model gives there means nothing, and the theorems on these
    functions ask for a thickness that is not zero. *)

Definition calc_sr_units (br th : Q) : result pint.Quantity :=
  pint.to (pint.div (pint.rmul br BR) (pint.rmul th TH)) (pint.units SR).

Definition calc_sr (br th : Q) : result Q :=
  result_map pint.magnitude (calc_sr_units br th).

(** ** numpy: [full], [linspace] *)

Definition np_full (num : nat) (fill_value : Q) : list Q :=
  repeat fill_value num.

Definition np_arange (num : nat) : list Q :=
  map (fun i => inject_Z (Z.of_nat i)) (seq 0 num).

(** [linspace(start, stop, num)] with [endpoint=True]: the points are
    [i*step + start], and when there are at least two the last one is
    overwritten with [stop]. *)
Definition np_linspace (start stop : Q) (num : nat) : list Q :=
  let div := (Z.of_nat num - 1)%Z in
  let delta := stop - start in
  let y := np_arange num in
  let y :=
    if (0 <? div)%Z then
      let step := delta / inject_Z div in
      if Qeq_bool step 0
      then map (fun v => (v / inject_Z div) * delta) y
      else map (fun v => v * step) y
    else map (fun v => v * delta) y in
  let y := map (fun v => v + start) y in
  if (1 <? num)%nat then <[pred num := stop]> y else y.

Definition divide_interval (value : Value) (num : nat) : list Q :=
  let valmin := pint.magnitude (valmin value) in
  let valmax := pint.magnitude (valmax value) in
  if Qeq_bool valmin valmax
  then np_full num valmin
  else np_linspace valmin valmax num.

(** ** numpy: [log10]

    [log10] of a positive number is kept symbolic; zero gives [-inf] and a
    negative number gives [nan], each with a warning and no exception.
    The argument is a rational: the [+inf] that [log10] returns for an
    infinite argument does not arise for divisors that are not zero. *)

Inductive logval : Type :=
  | log10_of (x : Q)
  | neg_inf
  | nan.

Definition np_log10 (x : Q) : logval :=
  if Qle_bool x 0
  then (if Qeq_bool x 0 then neg_inf else nan)
  else log10_of x.

(** ** statistics: [mean], [stdev]; the builtins [min], [max] *)

Definition fsum (xs : list Q) : Q := fold_right Qplus 0 xs.

Definition count (xs : list Q) : Q := inject_Z (Z.of_nat (List.length xs)).

Definition mean (xs : list Q) : result Q :=
  match xs with
  | [] => Raised StatisticsError
  | _ => Ok (fsum xs / count xs)
  end.

Definition variance (xs : list Q) : result Q :=
  if (List.length xs <? 2)%nat then Raised StatisticsError
  else
    let c := fsum xs / count xs in
    Ok (fsum (map (fun x => (x - c) * (x - c)) xs) / (count xs - 1)).

(** A square root is kept symbolic: [sqrt_of v] is the non-negative root
    of [v]. *)
Inductive root : Type := sqrt_of (v : Q).

Definition radicand (r : root) : Q := let 'sqrt_of v := r in v.

(** [lo <= r <= hi] for non-negative bounds *)
Definition root_between (lo hi : Q) (r : root) : Prop :=
  0 <= lo /\ 0 <= hi /\ lo * lo <= radicand r /\ radicand r <= hi * hi.

Definition stdev (xs : list Q) : result root :=
  result_map sqrt_of (variance xs).

Definition py_min (xs : list Q) : result Q :=
  match xs with
  | [] => Raised ValueError
  | x :: xs' => Ok (fold_left (fun m y => if Qle_bool m y then m else y) xs' x)
  end.

Definition py_max (xs : list Q) : result Q :=
  match xs with
  | [] => Raised ValueError
  | x :: xs' => Ok (fold_left (fun m y => if Qle_bool y m then m else y) xs' x)
  end.

(** ** The matplotlib axes and the standard output

    The axes record the calls they receive, in order; so does the
    standard output, one entry per [print], with the numbers as they are
    before formatting. *)

Inductive ticklabel : Type :=
  | tick_num (q : Q)
  | tick_str (s : string).

Inductive ax_call : Type :=
  | set_title (s : string)
  | set_xlabel (s : string)
  | set_ylabel (s : string)
  | grid (b : bool) (which axis : string)
  | set_xlim (lo hi : Q)
  | set_xscale (s : string)
  | xaxis_set_ticks (t : list Q)
  | xaxis_set_ticklabels (l : list string)
  | yaxis_set_ticks (t : list Q)
  | set_yticklabels (l : list ticklabel)
  | scatter (x : list Q) (y : list logval) (color : string) (s : Z).

Inductive printed : Type :=
  | print_br_th_sr (br th sr : Q)
  | print_name_th (name : string) (th : Q)
  | print_tr (tr : Q)
  | print_stats (cat_name : string) (ohm_mean : Q) (ohm_stdev : root)
                (ohm_min ohm_max : Q).

Record Plot2D : Type := mkPlot2D {
  scatter_plot : bool;
  ax : list ax_call;
  begin : bool
}.

Definition Plot2D_init (scatter : bool) : Plot2D :=
  {| scatter_plot := scatter; ax := []; begin := true |}.

Record world : Type := mkWorld {
  self : Plot2D;
  stdout : list printed
}.

(** ** A state monad with exceptions and process exit *)

Definition M (A : Type) : Type := world -> result A * world.

Definition ret {A} (a : A) : M A := fun w => (Ok a, w).

Definition bind {A B} (m : M A) (k : A -> M B) : M B :=
  fun w =>
    match m w with
    | (Ok a, w') => k a w'
    | (Raised e, w') => (Raised e, w')
    | (SysExit c, w') => (SysExit c, w')
    end.

Notation "'let*' x ':=' m 'in' k" := (bind m (fun x => k))
  (at level 10, x pattern, m at level 100, k at level 200).
Notation "m ';;' k" := (bind m (fun _ => k))
  (at level 100, k at level 200, right associativity).

Definition lift {A} (r : result A) : M A := fun w => (r, w).

Definition raise {A} (e : exn) : M A := lift (Raised e).

Definition exit {A} (code : Z) : M A := lift (SysExit code).

Definition emit (ls : list printed) (w : world) : world :=
  {| self := self w; stdout := stdout w ++ ls |}.

Definition print (l : printed) : M unit := fun w => (Ok tt, emit [l] w).

Definition draw (cs : list ax_call) (w : world) : world :=
  {| self := {| scatter_plot := scatter_plot (self w);
                ax := ax (self w) ++ cs;
                begin := begin (self w) |};
     stdout := stdout w |}.

Definition ax_do (cs : list ax_call) : M unit := fun w => (Ok tt, draw cs w).

Definition get_begin : M bool := fun w => (Ok (begin (self w)), w).

Definition began (w : world) : world :=
  {| self := {| scatter_plot := scatter_plot (self w);
                ax := ax (self w);
                begin := false |};
     stdout := stdout w |}.

Definition clear_begin : M unit := fun w => (Ok tt, began w).

(** [for a in l: acc = body(acc, a)] *)
Fixpoint for_each {A S} (body : S -> A -> M S) (acc : S) (l : list A)
    : M S :=
  match l with
  | [] => ret acc
  | a :: l' => let* acc' := body acc a in for_each body acc' l'
  end.

(** What the one-shot block at the head of a method did. *)
Inductive flow : Type := Continue | Return.

(** ** class Plot2D *)

Definition units_mOhms : string := "mOhms/Sq".
Definition units_Ohms : string := "Ohms/Sq".

Definition valid_units (units : string) : Prop :=
  units = units_mOhms \/ units = units_Ohms.

Definition category_ticklabels : list string :=
  [ "copper"; Catname flexo; Catname inkjet; Catname screen;
    Catname aerosol; Catname carbon ].

(** [[ w.microns for w in pcb_weights ]] *)
Definition pcb_microns : list Q := map microns pcb_weights.

(** The two bulk resistivities [[ m.r_bulk.valmin, m.r_bulk.valmax ]] *)
Definition brlist (m : Material) : list pint.Quantity :=
  [ valmin (r_bulk m); valmax (r_bulk m) ].

(** *** [Plot2D.sheet_resistance] *)

Definition sheet_resistance_thlist (m : Material) : list Q :=
  if decide (cat m = metal) then pcb_microns
  else divide_interval (thickness m) 10.

Definition sheet_resistance_begin (units : string) : M flow :=
  let* b := get_begin in
  if b then
    let go (sr_units : string) : M flow :=
      ax_do [ set_title "Sheet Resistances at Typical Thicknesses";
              set_xlabel "Material";
              grid true "major" "y";
              set_xlim 10 130;
              xaxis_set_ticks [18; 38; 58; 78; 98; 118];
              xaxis_set_ticklabels category_ticklabels;
              set_ylabel ("Sheet Resistance in " ++ sr_units);
              grid true "both" "y" ] ;;
      clear_begin ;;
      ret Continue in
    if String.eqb units units_mOhms then go ("m" ++ symOmega ++ "/sq")%string
    else if String.eqb units units_Ohms then go (symOmega ++ "/sq")%string
    else ret Return
  else ret Continue.

Definition sheet_resistance_point (units : string) (m : Material)
    (br : pint.Quantity) (acc : list Q * list Q) (th : Q)
    : M (list Q * list Q) :=
  let '(xdata, ydata) := acc in
  let* sr := lift (calc_sr (pint.magnitude br) th) in
  let* sr :=
    if String.eqb units units_mOhms then ret sr
    else if String.eqb units units_Ohms then ret (sr / 1000.0)
    else exit 0 in
  let acc' := (xdata ++ [inject_Z (index m)], ydata ++ [sr]) in
  (if decide (cat m = metal)
   then print (print_br_th_sr (pint.magnitude br) th sr)
   else ret tt) ;;
  ret acc'.

Definition sheet_resistance_loop (units : string) (mlist : list Material)
    : M (list Q * list Q) :=
  for_each (fun acc m =>
    for_each (fun acc br =>
      for_each (sheet_resistance_point units m br) acc
               (sheet_resistance_thlist m))
      acc (brlist m))
    ([], []) mlist.

Definition Plot2D_sheet_resistance (mlist : option (list Material))
    (plotcolor : string) (units : string) : M unit :=
  let* fl := sheet_resistance_begin units in
  match fl, mlist with
  | Return, _ => ret tt
  | Continue, None => ret tt
  | Continue, Some mlist =>
      let* (xdata, ydata) := sheet_resistance_loop units mlist in
      let x := xdata in
      let y := map np_log10 ydata in
      ax_do [ scatter x y plotcolor 64 ] ;;
      if String.eqb units units_mOhms then
        ax_do [ yaxis_set_ticks [-1; 0; 1; 2; 3; 4; 5; 6; 7; 8];
                set_yticklabels
                  [ tick_num 0.1; tick_num 1; tick_num 10; tick_num 100;
                    tick_str "1K"; tick_str "10K"; tick_str "100K";
                    tick_str "1M"; tick_str "10M"; tick_str "100M" ] ]
      else if String.eqb units units_Ohms then
        ax_do [ yaxis_set_ticks [-3; -2; -1; 0; 1; 2; 3; 4; 5];
                set_yticklabels
                  [ tick_num 0.001; tick_num 0.01; tick_num 0.1; tick_num 1;
                    tick_num 10; tick_num 100; tick_str "1K";
                    tick_str "10K"; tick_str "100K" ] ]
      else exit 0
  end.

(** *** [Plot2D.thickness] *)

Definition thickness_thlist (m : Material) : list Q :=
  if decide (cat m = metal) then pcb_microns
  else divide_interval (thickness m) 25.

Definition thickness_begin : M unit :=
  let* b := get_begin in
  if b then
    let th_units := (symMu ++ "m")%string in
    ax_do [ set_title "Typical Thicknesses by Material Type";
            set_xlabel "Material";
            grid true "major" "y";
            set_xlim 10 115;
            xaxis_set_ticks [18; 38; 58; 78; 98];
            xaxis_set_ticklabels
              [ "copper"; Catname flexo; Catname inkjet; Catname screen;
                Catname aerosol ];
            set_ylabel ("Sheet Thickness in " ++ th_units) ] ;;
    clear_begin
  else ret tt.

Definition thickness_loop (mlist : list Material) : M (list Q * list Q) :=
  for_each (fun acc m =>
    for_each (fun '(xdata, ydata) th =>
      ret (xdata ++ [inject_Z (index m)], ydata ++ [th]))
      acc (thickness_thlist m))
    ([], []) mlist.

Definition Plot2D_thickness (mlist : option (list Material))
    (plotcolor : string) : M unit :=
  thickness_begin ;;
  match mlist with
  | None => ret tt
  | Some mlist =>
      let* (xdata, ydata) := thickness_loop mlist in
      let x := xdata in
      let y := map np_log10 ydata in
      ax_do [ scatter x y plotcolor 64;
              yaxis_set_ticks [-2; -1; 0; 1; 2; 2.3];
              set_yticklabels
                [ tick_num 0.01; tick_num 0.1; tick_num 1; tick_num 10;
                  tick_num 100; tick_num 200 ] ]
  end.

(** *** [Plot2D.trace_resistance] *)

Definition trace_resistance_thlist (m : Material) : list Q :=
  if decide (cat m = metal) then pcb_microns
  else divide_interval (thickness m) 10.

Definition trace_resistance_begin (title : string) : M unit :=
  let* b := get_begin in
  if b then
    let tr_units := symOmega in
    ax_do [ set_title title;
            set_xlabel "Material";
            grid true "major" "y";
            set_xlim 10 130;
            xaxis_set_ticks [18; 38; 58; 78; 98; 118];
            xaxis_set_ticklabels category_ticklabels;
            set_ylabel ("Trace Resistance in " ++ tr_units);
            grid true "both" "y" ] ;;
    clear_begin
  else ret tt.

(** [tr = (sr * trace.squares).to(u.ohms)], for a thickness that is not
    zero (see [calc_sr_units]) *)
Definition calc_tr (trace : Trace) (br th : Q) : result pint.Quantity :=
  result_bind (calc_sr_units br th) (fun sr =>
    pint.to (pint.mul sr (squares trace)) pint.ohm).

Definition trace_resistance_point (trace : Trace) (m : Material)
    (br : pint.Quantity) (acc : list Q * list Q * list Q) (th : Q)
    : M (list Q * list Q * list Q) :=
  let '(xdata, ydata, ohms) := acc in
  let* tr := lift (calc_tr trace (pint.magnitude br) th) in
  let acc' := (xdata ++ [inject_Z (index m)],
               ydata ++ [pint.magnitude tr],
               ohms ++ [pint.magnitude tr]) in
  (if decide (cat m = metal)
   then print (print_name_th (name m) th) ;;
        print (print_tr (pint.magnitude tr))
   else ret tt) ;;
  ret acc'.

Definition trace_resistance_loop (trace : Trace) (mlist : list Material)
    : M (list Q * list Q * list Q) :=
  for_each (fun acc m =>
    for_each (fun acc br =>
      for_each (trace_resistance_point trace m br) acc
               (trace_resistance_thlist m))
      acc (brlist m))
    ([], [], []) mlist.

(** After [for m in mlist], [m] is the last material, and it is unbound
    when the list is empty. *)
Definition loop_variable (mlist : list Material) : M Material :=
  match last mlist with
  | Some m => ret m
  | None => raise UnboundLocalError
  end.

Definition trace_resistance_summary (m : Material) (ohms : list Q) : M unit :=
  if decide (cat m <> metal) then
    let* ohm_mean := lift (mean ohms) in
    let* ohm_stdev := lift (stdev ohms) in
    let* ohm_min := lift (py_min ohms) in
    let* ohm_max := lift (py_max ohms) in
    print (print_stats (Catname (cat m)) ohm_mean ohm_stdev ohm_min ohm_max)
  else ret tt.

Definition Plot2D_trace_resistance (trace : Trace)
    (mlist : option (list Material)) (plotcolor : string) (title : string)
    : M unit :=
  trace_resistance_begin title ;;
  match mlist with
  | None => ret tt
  | Some mlist =>
      let* (xdata, ydata, ohms) := trace_resistance_loop trace mlist in
      let* m := loop_variable mlist in
      trace_resistance_summary m ohms ;;
      let x := xdata in
      let y := map np_log10 ydata in
      ax_do [ scatter x y plotcolor 64;
              yaxis_set_ticks [-1; 0; 1; 2; 3; 4; 5; 6];
              set_yticklabels
                [ tick_num 0.1; tick_num 1; tick_num 10; tick_num 100;
                  tick_str "1K"; tick_str "10K"; tick_str "100K";
                  tick_str "1M" ] ]
  end.

(** *** [Plot2D.trace_resistance_vs_width] *)

Definition trace_resistance_vs_width_thlist (m : Material) : list Q :=
  divide_interval (thickness m) 10.

Definition trace_resistance_vs_width_begin (title : string) : M unit :=
  let* b := get_begin in
  if b then
    let tr_units := symOmega in
    ax_do [ set_title title;
            set_xlabel "Width in mm";
            grid true "major" "y";
            set_xlim 0.9 110;
            set_ylabel ("Trace Resistance in " ++ tr_units);
            grid true "both" "x" ] ;;
    clear_begin
  else ret tt.

Definition trace_resistance_vs_width_point (trace : Trace) (m : Material)
    (br : pint.Quantity) (acc : list Q * list Q * list Q) (th : Q)
    : M (list Q * list Q * list Q) :=
  let '(xdata, ydata, ohms) := acc in
  let* tr := lift (calc_tr trace (pint.magnitude br) th) in
  ret (xdata ++ [pint.magnitude (trace_width trace)],
       ydata ++ [pint.magnitude tr],
       ohms ++ [pint.magnitude tr]).

Definition trace_resistance_vs_width_loop (trace : Trace)
    (mlist : list Material) : M (list Q * list Q * list Q) :=
  for_each (fun acc m =>
    for_each (fun acc br =>
      for_each (trace_resistance_vs_width_point trace m br) acc
               (trace_resistance_vs_width_thlist m))
      acc (brlist m))
    ([], [], []) mlist.

Definition Plot2D_trace_resistance_vs_width (trace : Trace)
    (mlist : option (list Material)) (plotcolor : string) (title : string)
    : M unit :=
  trace_resistance_vs_width_begin title ;;
  match mlist with
  | None => ret tt
  | Some mlist =>
      let* (xdata, ydata, ohms) := trace_resistance_vs_width_loop trace mlist in
      let x := xdata in
      let y := map np_log10 ydata in
      ax_do [ set_xscale "log";
              scatter x y plotcolor 64;
              yaxis_set_ticks [1; 2; 3; 4; 5; 6];
              set_yticklabels
                [ tick_num 10; tick_num 100; tick_str "1K"; tick_str "10K";
                  tick_str "100K"; tick_str "1M" ] ]
  end.

(** The traces of [plot2d_trace_resistance]: their widths are not zero,
    so the constructor returns these objects. *)
Definition signal_trace : Trace :=
  Trace_fields (pint.of_unit 3 pint.inch) (pint.of_unit 8 pint.milliinch)
               (pint.of_unit 1.4 pint.milliinch).
Definition power_trace : Trace :=
  Trace_fields (pint.of_unit 2 pint.inch) (pint.of_unit 100 pint.milliinch)
               (pint.of_unit 1.4 pint.milliinch).
Definition heater_trace : Trace :=
  Trace_fields (pint.of_unit 2 pint.inch) (pint.of_unit 1 pint.cm)
               (pint.of_unit 1.4 pint.milliinch).

(** A trace whose width was given in Ohm: its squares are a length over
    a resistance. *)
Definition ohm_wide_trace : Trace :=
  Trace_fields (pint.of_unit 2 pint.inch) (pint.of_unit 1 pint.ohm)
               (pint.of_unit 1.4 pint.milliinch).

(** ** Properties named by the specification *)

(** [min <= estimate <= max] *)
Definition Value_invariant (v : Value) : Prop :=
  pint.magnitude (valmin v) <= pint.magnitude (value v) /\
  pint.magnitude (value v) <= pint.magnitude (valmax v).

Definition Value_invariantb (v : Value) : bool :=
  (Qle_bool (pint.magnitude (valmin v)) (pint.magnitude (value v)) &&
   Qle_bool (pint.magnitude (value v)) (pint.magnitude (valmax v)))%bool.

(** A unit tag is the quantity [1 * unit], as [BR], [SR] and [TH] are. *)
Definition unit_tag (un : pint.Unit) : pint.Quantity := pint.of_unit 1 un.

(** The arguments of a construction are in order. *)
Definition args_in_order (val1 : Q) (val2 val3 : option Q) : Prop :=
  match val2, val3 with
  | None, _ => True
  | Some v2, None => val1 <= v2
  | Some lo, Some hi => lo <= val1 /\ val1 <= hi
  end.

Definition nondecreasing (l : list Q) : Prop :=
  forall (i j : nat) (x y : Q),
    (i <= j)%nat -> l !! i = Some x -> l !! j = Some y -> x <= y.

(** The interval sampler as the specification words it: [N] points from
    [min] to [max], and a single point when [min == max]. *)
Definition interval_sample_spec (q : Value) (N : nat) : Prop :=
  let l := divide_interval q N in
  let lo := pint.magnitude (valmin q) in
  let hi := pint.magnitude (valmax q) in
  List.length l = N /\
  (exists x, head l = Some x /\ x == lo) /\
  (exists y, last l = Some y /\ y == hi) /\
  (lo <= hi -> nondecreasing l) /\
  (lo == hi -> exists x, l = [x] /\ x == lo).

(** The thickness samples of a metal as the specification words them,
    for one sweep given by its sampler. *)
Definition metal_uses_pcb_weights (thlist : Material -> list Q) : Prop :=
  forall m, cat m = metal -> thlist m = [17.4; 34.8; 69.6; 139.2].

(** The process ends inside the call. *)
Definition terminates_process {A} (r : result A) : Prop :=
  match r with
  | Ok _ => False
  | Raised _ => True
  | SysExit _ => True
  end.

(** The scatter calls among the calls an axes received. *)
Definition scattered (cs : list ax_call) : list (list Q * list logval) :=
  omap (fun c => match c with
                 | scatter x y _ _ => Some (x, y)
                 | _ => None
                 end) cs.

Definition is_stats (l : printed) : bool :=
  match l with
  | print_stats _ _ _ _ _ => true
  | _ => false
  end.

Definition a_fresh_world : world :=
  {| self := Plot2D_init true; stdout := [] |}.

(** ** Further functions of the file *)

(** [{ x.name:x for x in ms }] for any list of materials; [byname] is
    this dictionary for [matls]. *)
Definition dict_by_name (ms : list Material) : gmap string Material :=
  list_to_map (map (fun x => (name x, x)) (rev ms)).

(** The number of rows of a category. *)
Definition rows_of (c : Category) (rows : list row) : nat :=
  List.length (filter (fun r => row_cat r = c) rows).

(** [print_sheet_resistance(m)], the second definition of that name,
    which replaces the first: both lists are taken from [m.r_bulk]. *)
Definition print_sheet_resistance (m : Material) : M unit :=
  let brlist := divide_interval (r_bulk m) 10 in
  let thlist := divide_interval (r_bulk m) 10 in
  for_each (fun _ br =>
    for_each (fun _ th =>
      let* sr_units :=
        lift (pint.to (pint.div (pint.rmul br BR) (pint.rmul th TH))
                      (pint.units SR)) in
      let sr := pint.magnitude sr_units in
      print (print_br_th_sr br th sr))
      tt thlist)
    tt brlist.

(** The counter a category starts from, given the dictionary. *)
Definition next_index (idx : gmap Category Z) (c : Category) : Z :=
  match idx !! c with
  | Some i => (i + 1)%Z
  | None => (20 * Category_int c)%Z
  end.

(** An accumulator that holds nothing. *)
Definition push0 (acc : unit) (pts : list unit) : unit := acc.

(** ** The populations of the sweeps, as pure functions

    What the nested loops of a sweep append, material by material, when
    no step raises. *)

(** The magnitude [calc_sr] returns. *)
Definition sr_magnitude (br th : Q) : Q :=
  pint.magnitude
    (pint.convert (pint.div (pint.rmul br BR) (pint.rmul th TH))
                  (pint.units SR)).

(** The sheet resistance in the units selected. *)
Definition sr_in_units (units : string) (br th : Q) : Q :=
  if String.eqb units units_mOhms then sr_magnitude br th
  else sr_magnitude br th / 1000.0.

(** The magnitude of [(sr * trace.squares).to(u.ohms)]. *)
Definition tr_magnitude (trace : Trace) (br th : Q) : Q :=
  pint.magnitude
    (pint.convert
       (pint.mul (pint.convert (pint.div (pint.rmul br BR) (pint.rmul th TH))
                               (pint.units SR))
                 (squares trace))
       pint.ohm).

(** One value per bulk resistivity and thickness sample of a material. *)
Definition sweep {B} (thlist : Material -> list Q)
    (f : Q -> Q -> list B) (m : Material) : list B :=
  flat_map (fun br => flat_map (f (pint.magnitude br)) (thlist m)) (brlist m).

(** The points (x, y) of a material, before the log transform. *)
Definition sheet_resistance_points (units : string) (m : Material)
    : list (Q * Q) :=
  sweep sheet_resistance_thlist
        (fun br th => [(inject_Z (index m), sr_in_units units br th)]) m.

Definition sheet_resistance_prints (units : string) (m : Material)
    : list printed :=
  sweep sheet_resistance_thlist
        (fun br th => if decide (cat m = metal)
                      then [print_br_th_sr br th (sr_in_units units br th)]
                      else []) m.

Definition trace_resistance_points (trace : Trace) (m : Material)
    : list (Q * Q) :=
  sweep trace_resistance_thlist
        (fun br th => [(inject_Z (index m), tr_magnitude trace br th)]) m.

Definition trace_resistance_prints (trace : Trace) (m : Material)
    : list printed :=
  sweep trace_resistance_thlist
        (fun br th => if decide (cat m = metal)
                      then [print_name_th (name m) th;
                            print_tr (tr_magnitude trace br th)]
                      else []) m.

Definition trace_resistance_vs_width_points (trace : Trace) (m : Material)
    : list (Q * Q) :=
  sweep trace_resistance_vs_width_thlist
        (fun br th => [(pint.magnitude (trace_width trace),
                        tr_magnitude trace br th)]) m.

(** The derived values of one material in each sweep. *)
Definition sheet_resistance_values (units : string) (m : Material) : list Q :=
  map snd (sheet_resistance_points units m).
Definition trace_resistance_values (trace : Trace) (m : Material) : list Q :=
  map snd (trace_resistance_points trace m).
Definition trace_resistance_vs_width_values (trace : Trace) (m : Material)
    : list Q :=
  map snd (trace_resistance_vs_width_points trace m).

(** Appending points to the accumulators of a loop: [xdata] and [ydata],
    and with them [ohms], which receives the same values as [ydata]. *)
Definition push2 (acc : list Q * list Q) (pts : list (Q * Q))
    : list Q * list Q :=
  (fst acc ++ map fst pts, snd acc ++ map snd pts).

Definition push3 (acc : list Q * list Q * list Q) (pts : list (Q * Q))
    : list Q * list Q * list Q :=
  (fst (fst acc) ++ map fst pts, snd (fst acc) ++ map snd pts,
   snd acc ++ map snd pts).

(** The lines of [print_sheet_resistance] for a list of samples used for
    both loops. *)
Definition sheet_resistance_table (samples : list Q) : list printed :=
  flat_map (fun br =>
    flat_map (fun th => [print_br_th_sr br th (sr_magnitude br th)]) samples)
    samples.

(** The points of a material in the thickness plot. *)
Definition thickness_points (m : Material) : list (Q * Q) :=
  flat_map (fun th => [(inject_Z (index m), th)]) (thickness_thlist m).

(** A material whose bulk resistivities are positive and whose
    thickness interval is positive and in order. *)
Definition positive_data (m : Material) : Prop :=
  0 < pint.magnitude (valmin (r_bulk m)) /\
  0 < pint.magnitude (valmax (r_bulk m)) /\
  0 < pint.magnitude (valmin (thickness m)) /\
  pint.magnitude (valmin (thickness m))
  <= pint.magnitude (valmax (thickness m)).

Definition positive_datab (m : Material) : bool :=
  (negb (Qle_bool (pint.magnitude (valmin (r_bulk m))) 0)
   && negb (Qle_bool (pint.magnitude (valmax (r_bulk m))) 0)
   && negb (Qle_bool (pint.magnitude (valmin (thickness m))) 0)
   && Qle_bool (pint.magnitude (valmin (thickness m)))
               (pint.magnitude (valmax (thickness m))))%bool.

(** No thickness sample that a sweep takes for the materials of the
    list is zero. *)
Definition nonzero_thickness (thlist : Material -> list Q)
    (mlist : list Material) : Prop :=
  Forall (fun m => Forall (fun th => ~ th == 0) (thlist m)) mlist.

Definition nonzero_thicknessb (thlist : Material -> list Q)
    (mlist : list Material) : bool :=
  forallb (fun m => forallb (fun th => negb (Qeq_bool th 0)) (thlist m))
          mlist.

(** How many materials of a list are metals, and how many are not. *)
Definition metals_in (mlist : list Material) : nat :=
  List.length (filter (fun m => cat m = metal) mlist).
Definition others_in (mlist : list Material) : nat :=
  List.length (filter (fun m => cat m <> metal) mlist).

(** The lines a call added to the standard output. *)
Definition printed_since (before after : world) : list printed :=
  drop (List.length (stdout before)) (stdout after).

(** A material whose bulk resistivity is zero. *)
Definition zero_ohm_link : Material :=
  {| cat := flexo; name := "zero-ohm"; r_bulk := Value_init BR 0 None None;
     r_sheet := None; thickness := V TH 1.000 0.200 2.000; index := 45 |}.

(** * Theorems *)

(** ** Quantities *)

Lemma Value_invariantb_spec (v : Value) :
  Value_invariantb v = true <-> Value_invariant v.
Proof.
  unfold Value_invariantb, Value_invariant.
  rewrite andb_true_iff, !Qle_bool_iff. reflexivity.
Qed.

Lemma Value_init_three (u : pint.Unit) (c lo hi : Q) :
  Value_invariant (Value_init (unit_tag u) c (Some lo) (Some hi)) <->
  lo <= c /\ c <= hi.
Proof.
  unfold Value_invariant; cbn. rewrite !Qmult_1_r. reflexivity.
Qed.

(** C5: a Quantity built from exactly two values has min = v1, max = v2
    and estimate = (v1+v2)/2, whatever the unit tag. *)
Theorem Value_two_values (u : pint.Unit) (v1 v2 : Q) :
  let q := Value_init (unit_tag u) v1 (Some v2) None in
  pint.magnitude (valmin q) == v1 /\
  pint.magnitude (valmax q) == v2 /\
  pint.magnitude (value q) == (v1 + v2) / 2 /\
  pint.units (valmin q) = u /\ pint.units (valmax q) = u /\
  pint.units (value q) = u.
Proof.
  cbn. repeat split; try reflexivity; try apply Qmult_1_r.
  rewrite Qmult_1_r. field.
Qed.

(** C3, as the code has it: construction stores the magnitudes it is
    given and neither checks nor reorders them, so a Quantity satisfies
    min <= estimate <= max when its arguments are in order (one value;
    two values v1 <= v2; three values lo <= center <= hi), and a
    three-value Quantity satisfies it only then.  In the catalog every
    thickness satisfies it, and so does the bulk resistivity of every
    material that is not a metal and not hps-fg57b. *)
Theorem Value_invariant_of_ordered_arguments :
  (forall (u : pint.Unit) (val1 : Q) (val2 val3 : option Q),
      args_in_order val1 val2 val3 ->
      Value_invariant (Value_init (unit_tag u) val1 val2 val3)) /\
  (forall (u : pint.Unit) (c lo hi : Q),
      Value_invariant (Value_init (unit_tag u) c (Some lo) (Some hi)) ->
      lo <= c /\ c <= hi) /\
  Forall (fun m => Value_invariant (thickness m)) matls /\
  Forall (fun m => cat m <> metal -> name m <> "hps-fg57b" ->
                   Value_invariant (r_bulk m)) matls.
Proof.
  split; [|split; [|split]].
  - intros u val1 [v2|] [v3|] H; unfold Value_invariant; cbn in *;
      rewrite ?Qmult_1_r; lra.
  - intros u c lo hi H. by apply Value_init_three in H.
  - apply List.Forall_forall. intros m Hm. apply Value_invariantb_spec.
    revert m Hm. apply forallb_forall. vm_compute. reflexivity.
  - apply List.Forall_forall. intros m Hm Hc Hn. apply Value_invariantb_spec.
    assert (H : (bool_decide (cat m = metal)
                 || bool_decide (name m = "hps-fg57b")
                 || Value_invariantb (r_bulk m))%bool = true).
    { clear Hc Hn. revert m Hm.
      apply (forallb_forall
               (fun m => (bool_decide (cat m = metal)
                          || bool_decide (name m = "hps-fg57b")
                          || Value_invariantb (r_bulk m))%bool)).
      vm_compute. reflexivity. }
    rewrite !orb_true_iff, !bool_decide_eq_true in H. tauto.
Qed.

Lemma Value_invariant_of_ordered_arguments_witness :
  Value_invariant (Value_init (unit_tag pint.micron) 34.8 (Some 17.4) (Some 69.6)).
Proof.
  apply (proj1 Value_invariant_of_ordered_arguments
           pint.micron 34.8 (Some 17.4) (Some 69.6)).
  cbn. split; apply Qle_bool_iff; reflexivity.
Defined.

(** The bulk resistivity of hps-fg57b is built from (19, 22, 27): its
    estimate lies below its minimum. *)
Lemma hps_fg57b_estimate_below_min :
  exists m, byname !! "hps-fg57b" = Some m /\ In m matls /\
            pint.magnitude (value (r_bulk m)) < pint.magnitude (valmin (r_bulk m)) /\
            ~ Value_invariant (r_bulk m).
Proof.
  eexists; split; [vm_compute; reflexivity|]. split.
  - apply (nth_error_In _ 28). vm_compute. reflexivity.
  - assert (L : 19.00 * 1 < 22.00 * 1) by reflexivity.
    split; [exact L|]. unfold Value_invariant. intros [H _].
    apply Qle_not_lt in H. apply H. exact L.
Qed.

(** [plus_or_minus] returns (value, value + tolerance, value - tolerance)
    and the catalog passes the triple on as (value, min, max): with a
    positive tolerance the stored maximum lies below the stored minimum. *)
Lemma plus_or_minus_bounds (u : pint.Unit) (v tol : Q) :
  0 < tol ->
  let q := Value_star (unit_tag u) (plus_or_minus v tol) in
  pint.magnitude (valmax q) < pint.magnitude (value q) /\
  pint.magnitude (value q) < pint.magnitude (valmin q).
Proof. intros H. cbn. lra. Qed.

(** ** The catalog *)

Lemma indexer_first (c : Category) (idx : gmap Category Z) :
  idx !! c = None ->
  fst (indexer c idx) = (20 * Category_int c)%Z /\
  snd (indexer c idx) !! c = Some (20 * Category_int c)%Z.
Proof.
  intros H. unfold indexer. rewrite H. cbn.
  rewrite lookup_insert_eq. done.
Qed.

Lemma indexer_next (c : Category) (idx : gmap Category Z) (i : Z) :
  idx !! c = Some i ->
  fst (indexer c idx) = (i + 1)%Z /\
  snd (indexer c idx) !! c = Some (i + 1)%Z.
Proof.
  intros H. unfold indexer. rewrite H. cbn.
  rewrite lookup_insert_eq. done.
Qed.

Lemma indexer_other (c c' : Category) (idx : gmap Category Z) :
  c <> c' -> snd (indexer c idx) !! c' = idx !! c'.
Proof.
  intros H. unfold indexer. cbn.
  destruct (idx !! c); by rewrite lookup_insert_ne.
Qed.

(** C9: in the catalog built from the table, silver has plot index 20,
    the first metal (20 times the ordinal 1), and copper has 21, the
    second metal in insertion order. *)
Theorem catalog_silver_20_copper_21 :
  index <$> byname !! "silver" = Some 20%Z /\
  index <$> byname !! "copper" = Some 21%Z /\
  name <$> by_category metal !! 0%nat = Some "silver" /\
  name <$> by_category metal !! 1%nat = Some "copper" /\
  (catfactor * Category_int metal = 20)%Z.
Proof. vm_compute. repeat split; reflexivity. Qed.

(** ** Sheet resistance *)

Lemma calc_sr_units_ok (br th : Q) :
  exists sr, calc_sr_units br th = Ok sr /\
             pint.units sr = pint.mohm /\
             pint.magnitude sr == 10 * (br / th).
Proof.
  eexists. split; [reflexivity|]. split; [reflexivity|].
  cbn. destruct (Qeq_dec th 0) as [E|E].
  - rewrite E.
    assert (Z0 : / 0 == 0) by reflexivity.
    assert (Z1 : / (0 * 1) == 0) by reflexivity.
    unfold Qdiv. rewrite Z0, Z1. ring.
  - field. lra.
Qed.

Lemma calc_sr_ok (br th : Q) :
  exists sr, calc_sr br th = Ok sr /\ sr == 10 * (br / th).
Proof.
  destruct (calc_sr_units_ok br th) as (q & E & _ & H).
  exists (pint.magnitude q). unfold calc_sr. rewrite E. done.
Qed.

(** C4: for copper, 1.70 uOhm.cm at 34.8 um, the sheet resistance in
    mOhm per square is 10 x (1.70/34.8), within 1% of 0.4885. *)
Theorem calc_sr_copper_worked_example :
  exists sr, calc_sr 1.70 34.8 = Ok sr /\
             sr == 10 * (1.70 / 34.8) /\
             Qabs (sr - 0.4885) <= 0.01 * 0.4885.
Proof.
  eexists. split; [reflexivity|]. split.
  - reflexivity.
  - apply Qle_bool_iff. vm_compute. reflexivity.
Qed.

(** ** Summary statistics *)

(** C7: the standard deviation of fewer than two values raises the
    error of the statistics module (the specification's
    InsufficientDataError), so for [1.0]; over [1.0, 3.0] the mean is 2,
    the sample standard deviation is the root of 2, between 1.414 and
    1.415, the minimum is 1 and the maximum is 3.  The summary of the
    trace-resistance operation behaves so on these two populations. *)
Theorem summary_statistics_small_populations :
  (forall xs : list Q, (List.length xs < 2)%nat ->
                       stdev xs = Raised StatisticsError) /\
  stdev [1.0] = Raised StatisticsError /\
  (exists m, mean [1.0; 3.0] = Ok m /\ m == 2.0) /\
  (exists s, stdev [1.0; 3.0] = Ok s /\ radicand s == 2 /\
             root_between 1.414 1.415 s) /\
  (exists lo, py_min [1.0; 3.0] = Ok lo /\ lo == 1.0) /\
  (exists hi, py_max [1.0; 3.0] = Ok hi /\ hi == 3.0) /\
  (forall (m : Material) (w : world),
      cat m <> metal ->
      trace_resistance_summary m [1.0] w = (Raised StatisticsError, w) /\
      exists a s lo hi,
        trace_resistance_summary m [1.0; 3.0] w
        = (Ok tt, emit [print_stats (Catname (cat m)) a s lo hi] w) /\
        a == 2.0 /\ radicand s == 2 /\ lo == 1.0 /\ hi == 3.0).
Proof.
  split.
  { intros xs H. unfold stdev, variance.
    apply Nat.ltb_lt in H. rewrite H. reflexivity. }
  split; [reflexivity|].
  split; [eexists; split; [reflexivity|reflexivity]|].
  split.
  { eexists. split; [reflexivity|]. split; [reflexivity|].
    unfold root_between. cbn.
    repeat split; apply Qle_bool_iff; vm_compute; reflexivity. }
  split; [eexists; (split; [reflexivity|reflexivity])|].
  split; [eexists; (split; [reflexivity|reflexivity])|].
  intros m w Hm. unfold trace_resistance_summary.
  destruct (decide (cat m <> metal)); [|contradiction].
  split; [reflexivity|].
  eexists _, _, _, _. split; [reflexivity|].
  repeat split; reflexivity.
Qed.

Lemma summary_statistics_small_populations_witness :
  stdev [1.0] = Raised StatisticsError /\
  trace_resistance_summary zero_ohm_link [1.0] a_fresh_world
  = (Raised StatisticsError, a_fresh_world).
Proof.
  split.
  - apply (proj1 summary_statistics_small_populations [1.0]). cbn. lia.
  - apply (proj2 (proj2 (proj2 (proj2 (proj2 (proj2
             summary_statistics_small_populations)))))
             zero_ohm_link a_fresh_world).
    discriminate.
Defined.

(** ** The interval sampler *)

Lemma map_fmap {A B} (f : A -> B) (l : list A) : map f l = f <$> l.
Proof. induction l; cbn; congruence. Qed.

Lemma repeat_replicate {A} (x : A) (n : nat) : repeat x n = replicate n x.
Proof. induction n; cbn; congruence. Qed.

Lemma np_arange_lookup (n i : nat) :
  (i < n)%nat -> np_arange n !! i = Some (inject_Z (Z.of_nat i)).
Proof.
  intros H. unfold np_arange. rewrite map_fmap, list_lookup_fmap.
  rewrite lookup_seq_lt by lia. reflexivity.
Qed.

Lemma length_np_arange (n : nat) : List.length (np_arange n) = n.
Proof. unfold np_arange. by rewrite List.length_map, List.length_seq. Qed.

Lemma length_np_linspace (a b : Q) (n : nat) :
  List.length (np_linspace a b n) = n.
Proof.
  unfold np_linspace.
  repeat match goal with |- context [if ?c then _ else _] => destruct c end;
    rewrite ?length_insert, !List.length_map; apply length_np_arange.
Qed.

Lemma length_divide_interval (q : Value) (n : nat) :
  List.length (divide_interval q n) = n.
Proof.
  unfold divide_interval. destruct (Qeq_bool _ _).
  - apply List.repeat_length.
  - apply length_np_linspace.
Qed.

(** With at least two points, point [i] of [linspace] is
    [start + i * (stop - start)/(num - 1)]. *)
Lemma np_linspace_lookup (a b : Q) (n i : nat) :
  (2 <= n)%nat -> (i < n)%nat ->
  exists x, np_linspace a b n !! i = Some x /\
            x == a + inject_Z (Z.of_nat i)
                     * ((b - a) / inject_Z (Z.of_nat n - 1)).
Proof.
  intros Hn Hi. unfold np_linspace.
  assert (Hd : (0 <? Z.of_nat n - 1)%Z = true) by (apply Z.ltb_lt; lia).
  assert (H1 : (1 <? n)%nat = true) by (apply Nat.ltb_lt; lia).
  rewrite Hd, H1.
  assert (Hnz : ~ inject_Z (Z.of_nat n - 1) == 0).
  { intros E. unfold Qeq in E. cbn in E. lia. }
  destruct (decide (i = pred n)) as [->|Hne].
  - exists b. split.
    + apply list_lookup_insert_eq.
      destruct (Qeq_bool _ _); rewrite !List.length_map, length_np_arange; lia.
    + replace (Z.of_nat (pred n)) with (Z.of_nat n - 1)%Z by lia.
      field. exact Hnz.
  - rewrite list_lookup_insert_ne by congruence.
    destruct (Qeq_bool _ _); rewrite !map_fmap, !list_lookup_fmap,
      np_arange_lookup by lia; cbn; eexists; (split; [reflexivity|]);
      field; exact Hnz.
Qed.

Lemma np_linspace_one (a b : Q) :
  exists x, np_linspace a b 1 = [x] /\ x == a.
Proof.
  exists (0 * (b - a) + a). split; [reflexivity|]. ring.
Qed.

Lemma np_linspace_nondecreasing (a b : Q) (n : nat) :
  a <= b -> nondecreasing (np_linspace a b n).
Proof.
  intros Hab i j x y Hij Hx Hy.
  assert (Hj : (j < n)%nat).
  { apply lookup_lt_Some in Hy. by rewrite length_np_linspace in Hy. }
  destruct (decide (n = 1%nat)) as [->|Hn1].
  - assert (i = 0 /\ j = 0)%nat as [-> ->] by lia.
    rewrite Hx in Hy. injection Hy as ->. apply Qle_refl.
  - destruct (np_linspace_lookup a b n i) as (x' & Ex & Hx'); [lia..|].
    destruct (np_linspace_lookup a b n j) as (y' & Ey & Hy'); [lia..|].
    rewrite Hx in Ex. rewrite Hy in Ey.
    injection Ex as <-. injection Ey as <-.
    rewrite Hx', Hy'. apply Qplus_le_r.
    apply Qmult_le_compat_r.
    + rewrite <- Zle_Qle. lia.
    + apply Qle_shift_div_l.
      * replace 0 with (inject_Z 0) by reflexivity. rewrite <- Zlt_Qlt. lia.
      * lra.
Qed.

Lemma divide_interval_equal_bounds (q : Value) (n i : nat) (x : Q) :
  pint.magnitude (valmin q) == pint.magnitude (valmax q) ->
  divide_interval q n !! i = Some x ->
  x = pint.magnitude (valmin q).
Proof.
  intros E H. unfold divide_interval in H.
  apply Qeq_bool_iff in E. rewrite E in H.
  unfold np_full in H. rewrite repeat_replicate in H.
  apply lookup_replicate in H. tauto.
Qed.

Lemma divide_interval_distinct_bounds (q : Value) (n : nat) :
  ~ pint.magnitude (valmin q) == pint.magnitude (valmax q) ->
  divide_interval q n =
  np_linspace (pint.magnitude (valmin q)) (pint.magnitude (valmax q)) n.
Proof.
  intros E. unfold divide_interval.
  destruct (Qeq_bool _ _) eqn:B; [|reflexivity].
  apply Qeq_bool_iff in B. contradiction.
Qed.

(** C1, as the code has it: for N >= 1 the sampler returns exactly N
    points, the first equal to min, non-decreasing when min <= max; the
    last equals max when N >= 2 or min == max, while for N = 1 the only
    point is min; and when min == max all N points are that value. *)
Theorem divide_interval_samples (q : Value) (N : nat) :
  (1 <= N)%nat ->
  let l := divide_interval q N in
  let lo := pint.magnitude (valmin q) in
  let hi := pint.magnitude (valmax q) in
  List.length l = N /\
  (exists x, head l = Some x /\ x == lo) /\
  ((2 <= N)%nat \/ lo == hi -> exists y, last l = Some y /\ y == hi) /\
  (N = 1%nat -> exists x, l = [x] /\ x == lo) /\
  (lo <= hi -> nondecreasing l) /\
  (lo == hi -> Forall (fun x => x = lo) l).
Proof.
  intros HN l lo hi.
  assert (Hlen : List.length l = N) by apply length_divide_interval.
  destruct (Qeq_dec lo hi) as [E|E].
  - (* min == max: N copies *)
    assert (Hall : forall i x, l !! i = Some x -> x = lo).
    { intros i x. by apply divide_interval_equal_bounds. }
    split; [exact Hlen|]. split; [|split; [|split; [|split]]].
    + destruct (lookup_lt_is_Some_2 l 0%nat) as [x Hx]; [lia|].
      exists x. rewrite head_lookup. split; [exact Hx|].
      by rewrite (Hall _ _ Hx).
    + intros _.
      destruct (lookup_lt_is_Some_2 l (pred N)) as [y Hy]; [lia|].
      exists y. rewrite last_lookup, Hlen. split; [exact Hy|].
      by rewrite (Hall _ _ Hy).
    + intros ->. destruct l as [|x [|? ?]]; try discriminate.
      exists x. split; [reflexivity|]. by rewrite (Hall 0%nat x).
    + intros _ i j x y _ Hx Hy.
      rewrite (Hall _ _ Hx), (Hall _ _ Hy). apply Qle_refl.
    + intros _. apply Forall_lookup. exact Hall.
  - (* min <> max: linspace *)
    assert (El : l = np_linspace lo hi N)
      by (by apply divide_interval_distinct_bounds).
    split; [exact Hlen|]. split; [|split; [|split; [|split]]].
    + rewrite head_lookup, El.
      destruct (decide (N = 1%nat)) as [->|Hn].
      * destruct (np_linspace_one lo hi) as (x & -> & Hx). by exists x.
      * destruct (np_linspace_lookup lo hi N 0) as (x & Ex & Hx); [lia..|].
        exists x. split; [exact Ex|]. rewrite Hx. cbn. ring.
    + intros [HN2|]; [|contradiction].
      rewrite last_lookup, Hlen, El. exists hi. split; [|reflexivity].
      unfold np_linspace.
      assert (H1 : (1 <? N)%nat = true) by (apply Nat.ltb_lt; lia).
      rewrite H1. apply list_lookup_insert_eq.
      repeat match goal with |- context [if ?c then _ else _] => destruct c end;
        rewrite !List.length_map, length_np_arange; lia.
    + intros ->. rewrite El. apply np_linspace_one.
    + intros Hle. rewrite El. by apply np_linspace_nondecreasing.
    + intros. contradiction.
Qed.

Lemma divide_interval_samples_witness :
  List.length (divide_interval (V TH 34.8 17.4 69.6) 10) = 10%nat.
Proof.
  apply (divide_interval_samples (V TH 34.8 17.4 69.6) 10). lia.
Defined.

(** The sampler does not meet the specification's wording: one point
    taken from [17.4, 69.6] is 17.4, not 69.6; and three points taken
    from [12, 12] are three points, not one. *)
Lemma divide_interval_not_as_specified :
  ~ interval_sample_spec (V TH 34.8 17.4 69.6) 1 /\
  ~ interval_sample_spec (V BR 12.00 12.00 12.00) 3.
Proof.
  split.
  - intros (_ & _ & (y & Hy & E) & _).
    vm_compute in Hy. injection Hy as <-. discriminate E.
  - intros (_ & _ & _ & _ & H).
    destruct H as (x & Hx & _); [reflexivity|].
    vm_compute in Hx. discriminate Hx.
Qed.

(** ** Thickness samples of metals *)

(** C6, as the code has it: in the sheet-resistance, thickness and
    trace-resistance sweeps the thickness samples of a metal are the four
    PCB weights 17.4, 34.8, 69.6, 139.2; the trace-resistance-vs-width
    sweep samples the thickness interval of every material, metal or
    not, in 10 points. *)
Theorem metal_thickness_samples :
  metal_uses_pcb_weights sheet_resistance_thlist /\
  metal_uses_pcb_weights thickness_thlist /\
  metal_uses_pcb_weights trace_resistance_thlist /\
  (forall m, trace_resistance_vs_width_thlist m
             = divide_interval (thickness m) 10 /\
             List.length (trace_resistance_vs_width_thlist m) = 10%nat).
Proof.
  repeat split.
  - intros m H. unfold sheet_resistance_thlist. by rewrite decide_True.
  - intros m H. unfold thickness_thlist. by rewrite decide_True.
  - intros m H. unfold trace_resistance_thlist. by rewrite decide_True.
  - apply length_divide_interval.
Qed.

Lemma metal_thickness_samples_witness :
  exists m, bycopper = [m] /\
            sheet_resistance_thlist m = [17.4; 34.8; 69.6; 139.2].
Proof.
  eexists. split; [vm_compute; reflexivity|].
  apply (proj1 metal_thickness_samples). reflexivity.
Defined.

(** For copper the trace-resistance-vs-width sweep takes ten samples of
    the thickness interval, not the four PCB weights. *)
Lemma vs_width_ignores_pcb_weights :
  ~ metal_uses_pcb_weights trace_resistance_vs_width_thlist.
Proof.
  intros H.
  assert (exists m, bycopper = [m] /\ cat m = metal) as (m & _ & Hm).
  { eexists. split; [vm_compute; reflexivity|reflexivity]. }
  specialize (H m Hm).
  apply (f_equal (@List.length Q)) in H.
  unfold trace_resistance_vs_width_thlist in H.
  rewrite length_divide_interval in H. discriminate H.
Qed.

(** ** Loops that only append *)

Lemma emit_nil (w : world) : emit [] w = w.
Proof. destruct w. unfold emit. cbn. by rewrite app_nil_r. Qed.

Lemma emit_emit (a b : list printed) (w : world) :
  emit b (emit a w) = emit (a ++ b) w.
Proof. unfold emit. cbn. by rewrite <- List.app_assoc. Qed.

Section appending_loop.
Context {A S P : Type}.
Variable push : S -> list P -> S.
Hypothesis push_nil : forall s, push s [] = s.
Hypothesis push_push : forall s a b, push (push s a) b = push s (a ++ b).
Variable body : S -> A -> M S.
Variable points : A -> list P.
Variable lines : A -> list printed.
Hypothesis body_appends :
  forall acc a w, body acc a w = (Ok (push acc (points a)), emit (lines a) w).

Lemma for_each_appends (l : list A) (acc : S) (w : world) :
  for_each body acc l w
  = (Ok (push acc (flat_map points l)), emit (flat_map lines l) w).
Proof.
  revert acc w. induction l as [|a l IH]; intros acc w; cbn.
  - unfold ret. by rewrite push_nil, emit_nil.
  - unfold bind. rewrite body_appends, IH, push_push, emit_emit.
    reflexivity.
Qed.
End appending_loop.

Lemma flat_map_nil {A B} (l : list A) :
  flat_map (fun _ : A => @nil B) l = [].
Proof. induction l; [reflexivity|assumption]. Qed.

Lemma for_each_silent {A S P} (push : S -> list P -> S)
    (body : S -> A -> M S) (points : A -> list P) :
  (forall s, push s [] = s) ->
  (forall s a b, push (push s a) b = push s (a ++ b)) ->
  (forall acc a w, body acc a w = (Ok (push acc (points a)), w)) ->
  forall l acc w,
    for_each body acc l w = (Ok (push acc (flat_map points l)), w).
Proof.
  intros Hnil Hpush Hbody l acc w.
  rewrite (for_each_appends push Hnil Hpush body points (fun _ => [])).
  - by rewrite flat_map_nil, emit_nil.
  - intros. by rewrite emit_nil.
Qed.

Lemma push2_nil (s : list Q * list Q) : push2 s [] = s.
Proof. destruct s. unfold push2. cbn. by rewrite !app_nil_r. Qed.

Lemma push2_push2 (s : list Q * list Q) (a b : list (Q * Q)) :
  push2 (push2 s a) b = push2 s (a ++ b).
Proof.
  unfold push2. cbn. by rewrite !List.map_app, !List.app_assoc.
Qed.

Lemma push3_nil (s : list Q * list Q * list Q) : push3 s [] = s.
Proof. destruct s as [[? ?] ?]. unfold push3. cbn. by rewrite !app_nil_r. Qed.

Lemma push3_push3 (s : list Q * list Q * list Q) (a b : list (Q * Q)) :
  push3 (push3 s a) b = push3 s (a ++ b).
Proof.
  unfold push3. cbn. by rewrite !List.map_app, !List.app_assoc.
Qed.

Lemma map_flat_map {A B C} (g : B -> C) (f : A -> list B) (l : list A) :
  map g (flat_map f l) = flat_map (fun a => map g (f a)) l.
Proof.
  induction l as [|a l IH]; cbn; [reflexivity|].
  by rewrite List.map_app, IH.
Qed.

(** ** [Plot2D.sheet_resistance] *)

Lemma calc_sr_magnitude (br th : Q) : calc_sr br th = Ok (sr_magnitude br th).
Proof. reflexivity. Qed.

Lemma eqb_units_Ohms_mOhms : String.eqb units_Ohms units_mOhms = false.
Proof. reflexivity. Qed.

Lemma sheet_resistance_point_appends (units : string) (m : Material)
    (br : pint.Quantity) (acc : list Q * list Q) (th : Q) (w : world) :
  valid_units units ->
  sheet_resistance_point units m br acc th w
  = (Ok (push2 acc [(inject_Z (index m),
                     sr_in_units units (pint.magnitude br) th)]),
     emit (if decide (cat m = metal)
           then [print_br_th_sr (pint.magnitude br) th
                                (sr_in_units units (pint.magnitude br) th)]
           else []) w).
Proof.
  intros Hu. destruct acc as [xdata ydata].
  unfold sheet_resistance_point, sr_in_units, bind, lift, push2.
  rewrite calc_sr_magnitude.
  destruct Hu as [-> | ->].
  - rewrite String.eqb_refl. unfold ret.
    destruct (decide (cat m = metal)); [reflexivity|].
    by rewrite emit_nil.
  - rewrite eqb_units_Ohms_mOhms, String.eqb_refl. unfold ret.
    destruct (decide (cat m = metal)); [reflexivity|].
    by rewrite emit_nil.
Qed.

Lemma sheet_resistance_loop_appends (units : string)
    (mlist : list Material) (w : world) :
  valid_units units ->
  sheet_resistance_loop units mlist w
  = (Ok (push2 ([], []) (flat_map (sheet_resistance_points units) mlist)),
     emit (flat_map (sheet_resistance_prints units) mlist) w).
Proof.
  intros Hu. unfold sheet_resistance_loop.
  apply (for_each_appends push2 push2_nil push2_push2).
  intros acc m w1.
  apply (for_each_appends push2 push2_nil push2_push2 _
           (fun br => flat_map (fun th => [(inject_Z (index m),
                        sr_in_units units (pint.magnitude br) th)])
                        (sheet_resistance_thlist m))
           (fun br => flat_map (fun th => if decide (cat m = metal)
                        then [print_br_th_sr (pint.magnitude br) th
                               (sr_in_units units (pint.magnitude br) th)]
                        else []) (sheet_resistance_thlist m))).
  intros acc2 br w2.
  apply (for_each_appends push2 push2_nil push2_push2).
  intros acc3 th w3. by apply sheet_resistance_point_appends.
Qed.

Lemma stdout_draw (cs : list ax_call) (w : world) :
  stdout (draw cs w) = stdout w.
Proof. reflexivity. Qed.

Lemma scattered_app (a b : list ax_call) :
  scattered (a ++ b) = scattered a ++ scattered b.
Proof. unfold scattered. apply omap_app. Qed.

Lemma sheet_resistance_begin_valid (units : string) (w : world) :
  valid_units units ->
  exists w1, sheet_resistance_begin units w = (Ok Continue, w1) /\
             stdout w1 = stdout w /\
             scattered (ax (self w1)) = scattered (ax (self w)).
Proof.
  intros Hu. unfold sheet_resistance_begin, bind, get_begin.
  destruct (begin (self w)).
  - destruct Hu as [-> | ->].
    + rewrite String.eqb_refl. cbn. eexists. split; [reflexivity|].
      split; [reflexivity|]. cbn. rewrite scattered_app. cbn.
      by rewrite app_nil_r.
    + rewrite eqb_units_Ohms_mOhms, String.eqb_refl. cbn.
      eexists. split; [reflexivity|].
      split; [reflexivity|]. cbn. rewrite scattered_app. cbn.
      by rewrite app_nil_r.
  - exists w. done.
Qed.

Lemma invalid_units_eqb (units : string) :
  ~ valid_units units ->
  String.eqb units units_mOhms = false /\ String.eqb units units_Ohms = false.
Proof.
  intros H. split; apply String.eqb_neq; intros E; apply H;
    [by left | by right].
Qed.

Lemma sheet_resistance_point_exits (units : string) (m : Material)
    (br : pint.Quantity) (acc : list Q * list Q) (th : Q) (w : world) :
  ~ valid_units units ->
  sheet_resistance_point units m br acc th w = (SysExit 0, w).
Proof.
  intros Hu. destruct (invalid_units_eqb units Hu) as [E1 E2].
  destruct acc as [xdata ydata].
  unfold sheet_resistance_point, bind, lift.
  rewrite calc_sr_magnitude, E1, E2. reflexivity.
Qed.

Lemma sheet_resistance_thlist_nonempty (m : Material) :
  exists th rest, sheet_resistance_thlist m = th :: rest.
Proof.
  unfold sheet_resistance_thlist. destruct (decide (cat m = metal)).
  - by eexists _, _.
  - pose proof (length_divide_interval (thickness m) 10) as H.
    destruct (divide_interval (thickness m) 10) as [|th rest];
      [discriminate H|]. by eexists _, _.
Qed.

Lemma sheet_resistance_loop_exits (units : string) (m : Material)
    (mlist : list Material) (w : world) :
  ~ valid_units units ->
  sheet_resistance_loop units (m :: mlist) w = (SysExit 0, w).
Proof.
  intros Hu. destruct (sheet_resistance_thlist_nonempty m) as (th & rest & E).
  unfold sheet_resistance_loop. cbn [for_each brlist]. rewrite E.
  cbn [for_each]. unfold bind at 1 2 3.
  by rewrite sheet_resistance_point_exits.
Qed.

Lemma sheet_resistance_begin_done (units : string) (w : world) :
  begin (self w) = false ->
  sheet_resistance_begin units w = (Ok Continue, w).
Proof.
  intros Hb. unfold sheet_resistance_begin, bind, get_begin.
  by rewrite Hb.
Qed.

Lemma sheet_resistance_invalid_units (w : world) (mlist : list Material)
    (plotcolor units : string) :
  ~ valid_units units ->
  begin (self w) = false ->
  Plot2D_sheet_resistance (Some mlist) plotcolor units w
  = (SysExit 0,
     match mlist with
     | [] => draw [scatter [] [] plotcolor 64] w
     | _ :: _ => w
     end).
Proof.
  intros Hu Hb. destruct (invalid_units_eqb units Hu) as [E1 E2].
  unfold Plot2D_sheet_resistance. unfold bind at 1.
  rewrite sheet_resistance_begin_done by exact Hb.
  destruct mlist as [|m mlist].
  - unfold bind, sheet_resistance_loop. cbn. by rewrite E1, E2.
  - unfold bind at 1. by rewrite sheet_resistance_loop_exits.
Qed.

(** C2, as the code has it: on a chart whose one-shot setup has been
    done (every call after the first), a call with a list of materials
    and a units string outside the set ends the process through exit(0),
    a SystemExit with status 0 and no InvalidUnitSelectionError; when the
    list is non-empty this happens before anything is plotted or
    printed. *)
Theorem invalid_units_exit_after_setup (w : world) (mlist : list Material)
    (plotcolor units : string) :
  ~ valid_units units ->
  begin (self w) = false ->
  fst (Plot2D_sheet_resistance (Some mlist) plotcolor units w) = SysExit 0 /\
  (mlist <> [] ->
   snd (Plot2D_sheet_resistance (Some mlist) plotcolor units w) = w).
Proof.
  intros Hu Hb. rewrite sheet_resistance_invalid_units by assumption.
  split; [reflexivity|]. by destruct mlist.
Qed.

Lemma kOhms_invalid : ~ valid_units "kOhms/Sq".
Proof. intros [H|H]; discriminate H. Qed.

Lemma invalid_units_exit_after_setup_witness :
  fst (Plot2D_sheet_resistance (Some bycopper) "gold" "kOhms/Sq"
         (began a_fresh_world)) = SysExit 0.
Proof.
  apply (invalid_units_exit_after_setup (began a_fresh_world) bycopper
           "gold" "kOhms/Sq").
  - intros [H|H]; discriminate H.
  - reflexivity.
Defined.

(** With a units string outside the set, the first call on a chart
    returns normally and leaves the chart as it was, still awaiting its
    setup; so does a later call without a list. *)
Lemma invalid_units_call_returns :
  ~ valid_units "kOhms/Sq" /\
  Plot2D_sheet_resistance (Some bycopper) "gold" "kOhms/Sq" a_fresh_world
  = (Ok tt, a_fresh_world) /\
  ~ terminates_process
      (fst (Plot2D_sheet_resistance (Some bycopper) "gold" "kOhms/Sq"
              a_fresh_world)) /\
  ~ terminates_process
      (fst (Plot2D_sheet_resistance None "gold" "kOhms/Sq"
              (began a_fresh_world))).
Proof.
  split; [exact kOhms_invalid|].
  split; [reflexivity|]. split; intros H; exact H.
Qed.

Lemma sheet_resistance_valid_units (w : world) (mlist : list Material)
    (plotcolor units : string) :
  valid_units units ->
  let pts := flat_map (sheet_resistance_points units) mlist in
  exists w',
    Plot2D_sheet_resistance (Some mlist) plotcolor units w = (Ok tt, w') /\
    scattered (ax (self w'))
    = scattered (ax (self w)) ++ [(map fst pts, map np_log10 (map snd pts))].
Proof.
  intros Hu pts.
  destruct (sheet_resistance_begin_valid units w Hu) as (w1 & Eb & _ & Hs).
  unfold Plot2D_sheet_resistance. unfold bind at 1. rewrite Eb.
  unfold bind at 1. rewrite sheet_resistance_loop_appends by exact Hu.
  fold pts. cbn [push2 fst snd app]. rewrite <- Hs.
  destruct Hu as [-> | ->].
  - rewrite String.eqb_refl. eexists. split; [reflexivity|].
    cbn. rewrite !scattered_app. cbn. by rewrite app_nil_r.
  - rewrite eqb_units_Ohms_mOhms, String.eqb_refl.
    eexists. split; [reflexivity|].
    cbn. rewrite !scattered_app. cbn. by rewrite app_nil_r.
Qed.

(** ** Trace resistance *)

Lemma calc_tr_dimensionless (trace : Trace) (br th : Q) :
  pint.dimensionless (pint.units (squares trace)) ->
  exists tr, calc_tr trace br th = Ok tr /\
             pint.magnitude tr = tr_magnitude trace br th.
Proof.
  intros [Ho Hl]. eexists. split; [|reflexivity].
  unfold calc_tr.
  change (calc_sr_units br th)
    with (Ok (pint.convert (pint.div (pint.rmul br BR) (pint.rmul th TH))
                           (pint.units SR))).
  cbn [result_bind]. unfold pint.to, pint.same_dimension.
  cbn [pint.mul pint.units pint.unit_mul pint.ohm_exp pint.length_exp
       pint.convert pint.ohm SR pint.of_unit pint.mohm].
  by rewrite Ho, Hl.
Qed.

(** A one-shot setup block prints nothing and scatters nothing. *)
Ltac begin_block w :=
  unfold bind, get_begin; destruct (begin (self w));
  [ eexists; split; [reflexivity|]; split; [reflexivity|];
    cbn; rewrite scattered_app; cbn; by rewrite app_nil_r
  | exists w; done ].

Lemma trace_resistance_begin_quiet (title : string) (w : world) :
  exists w1, trace_resistance_begin title w = (Ok tt, w1) /\
             stdout w1 = stdout w /\
             scattered (ax (self w1)) = scattered (ax (self w)).
Proof. unfold trace_resistance_begin. begin_block w. Qed.

Lemma trace_resistance_vs_width_begin_quiet (title : string) (w : world) :
  exists w1, trace_resistance_vs_width_begin title w = (Ok tt, w1) /\
             stdout w1 = stdout w /\
             scattered (ax (self w1)) = scattered (ax (self w)).
Proof. unfold trace_resistance_vs_width_begin. begin_block w. Qed.

Section dimensionless_squares.
Variable trace : Trace.
Hypothesis squares_dimensionless :
  pint.dimensionless (pint.units (squares trace)).

Lemma trace_resistance_point_appends (m : Material) (br : pint.Quantity)
    (acc : list Q * list Q * list Q) (th : Q) (w : world) :
  trace_resistance_point trace m br acc th w
  = (Ok (push3 acc [(inject_Z (index m),
                     tr_magnitude trace (pint.magnitude br) th)]),
     emit (if decide (cat m = metal)
           then [print_name_th (name m) th;
                 print_tr (tr_magnitude trace (pint.magnitude br) th)]
           else []) w).
Proof.
  destruct acc as [[xdata ydata] ohms].
  destruct (calc_tr_dimensionless trace (pint.magnitude br) th
              squares_dimensionless) as (tr & E & Hm).
  unfold trace_resistance_point, bind, lift, push3. rewrite E, Hm.
  unfold ret, print. destruct (decide (cat m = metal)).
  - by rewrite emit_emit.
  - by rewrite emit_nil.
Qed.

Lemma trace_resistance_loop_appends (mlist : list Material) (w : world) :
  trace_resistance_loop trace mlist w
  = (Ok (push3 ([], [], []) (flat_map (trace_resistance_points trace) mlist)),
     emit (flat_map (trace_resistance_prints trace) mlist) w).
Proof.
  unfold trace_resistance_loop.
  apply (for_each_appends push3 push3_nil push3_push3).
  intros acc m w1.
  apply (for_each_appends push3 push3_nil push3_push3 _
           (fun br => flat_map (fun th => [(inject_Z (index m),
                        tr_magnitude trace (pint.magnitude br) th)])
                        (trace_resistance_thlist m))
           (fun br => flat_map (fun th => if decide (cat m = metal)
                        then [print_name_th (name m) th;
                              print_tr (tr_magnitude trace
                                          (pint.magnitude br) th)]
                        else []) (trace_resistance_thlist m))).
  intros acc2 br w2.
  apply (for_each_appends push3 push3_nil push3_push3).
  intros acc3 th w3. apply trace_resistance_point_appends.
Qed.

Lemma trace_resistance_vs_width_point_appends (m : Material)
    (br : pint.Quantity) (acc : list Q * list Q * list Q) (th : Q)
    (w : world) :
  trace_resistance_vs_width_point trace m br acc th w
  = (Ok (push3 acc [(pint.magnitude (trace_width trace),
                     tr_magnitude trace (pint.magnitude br) th)]), w).
Proof.
  destruct acc as [[xdata ydata] ohms].
  destruct (calc_tr_dimensionless trace (pint.magnitude br) th
              squares_dimensionless) as (tr & E & Hm).
  unfold trace_resistance_vs_width_point, bind, lift, push3.
  by rewrite E, Hm.
Qed.

Lemma trace_resistance_vs_width_loop_appends (mlist : list Material)
    (w : world) :
  trace_resistance_vs_width_loop trace mlist w
  = (Ok (push3 ([], [], [])
           (flat_map (trace_resistance_vs_width_points trace) mlist)), w).
Proof.
  unfold trace_resistance_vs_width_loop.
  apply (for_each_silent push3 _ _ push3_nil push3_push3).
  intros acc m w1.
  apply (for_each_silent push3 _
           (fun br => flat_map (fun th => [(pint.magnitude (trace_width trace),
                        tr_magnitude trace (pint.magnitude br) th)])
                        (trace_resistance_vs_width_thlist m))
           push3_nil push3_push3).
  intros acc2 br w2.
  apply (for_each_silent push3 _ _ push3_nil push3_push3).
  intros acc3 th w3. apply trace_resistance_vs_width_point_appends.
Qed.

Lemma trace_resistance_vs_width_plots (w : world) (mlist : list Material)
    (plotcolor title : string) :
  let pts := flat_map (trace_resistance_vs_width_points trace) mlist in
  exists w',
    Plot2D_trace_resistance_vs_width trace (Some mlist) plotcolor title w
    = (Ok tt, w') /\
    scattered (ax (self w'))
    = scattered (ax (self w)) ++ [(map fst pts, map np_log10 (map snd pts))].
Proof.
  intros pts.
  destruct (trace_resistance_vs_width_begin_quiet title w)
    as (w1 & Eb & _ & Hs).
  unfold Plot2D_trace_resistance_vs_width. unfold bind at 1. rewrite Eb.
  unfold bind at 1. rewrite trace_resistance_vs_width_loop_appends.
  fold pts. cbn [push3 fst snd app]. rewrite <- Hs.
  eexists. split; [reflexivity|].
  cbn. rewrite !scattered_app. reflexivity.
Qed.

End dimensionless_squares.

(** ** The log transform *)

Lemma nonzero_thicknessb_spec (thlist : Material -> list Q)
    (mlist : list Material) :
  nonzero_thicknessb thlist mlist = true -> nonzero_thickness thlist mlist.
Proof.
  unfold nonzero_thicknessb, nonzero_thickness. intros H.
  apply List.Forall_forall. intros m Hm.
  apply List.Forall_forall. intros th Hth E.
  rewrite forallb_forall in H. specialize (H m Hm).
  rewrite forallb_forall in H. specialize (H th Hth).
  apply Qeq_bool_iff in E. rewrite E in H. discriminate H.
Qed.

(** C8, as the code has it: nothing checks the sign of a derived value
    and no NonPositiveValueError exists.  log10 is applied to every value
    of the population, zero giving -inf and a negative value NaN; and
    when no thickness sample is zero (so that every derived value is a
    finite number), the sheet-resistance call (with either units string)
    and the trace-resistance-vs-width call (with a trace whose squares
    are a pure number) return normally after scattering the transformed
    values of the whole population. *)
Theorem log10_transform_is_unchecked :
  (forall x : Q, x == 0 -> np_log10 x = neg_inf) /\
  (forall x : Q, x < 0 -> np_log10 x = nan) /\
  (forall (w : world) (mlist : list Material) (plotcolor units : string),
      valid_units units ->
      nonzero_thickness sheet_resistance_thlist mlist ->
      let pts := flat_map (sheet_resistance_points units) mlist in
      exists w',
        Plot2D_sheet_resistance (Some mlist) plotcolor units w = (Ok tt, w') /\
        scattered (ax (self w'))
        = scattered (ax (self w))
          ++ [(map fst pts, map np_log10 (map snd pts))]) /\
  (forall (w : world) (trace : Trace) (mlist : list Material)
          (plotcolor title : string),
      pint.dimensionless (pint.units (squares trace)) ->
      nonzero_thickness trace_resistance_vs_width_thlist mlist ->
      let pts := flat_map (trace_resistance_vs_width_points trace) mlist in
      exists w',
        Plot2D_trace_resistance_vs_width trace (Some mlist) plotcolor title w
        = (Ok tt, w') /\
        scattered (ax (self w'))
        = scattered (ax (self w))
          ++ [(map fst pts, map np_log10 (map snd pts))]).
Proof.
  split; [|split; [|split]].
  - intros x E. unfold np_log10.
    assert (L : Qle_bool x 0 = true) by (apply Qle_bool_iff; lra).
    apply Qeq_bool_iff in E. by rewrite L, E.
  - intros x H. unfold np_log10.
    assert (L : Qle_bool x 0 = true) by (apply Qle_bool_iff; lra).
    rewrite L. destruct (Qeq_bool x 0) eqn:E; [|reflexivity].
    apply Qeq_bool_iff in E. lra.
  - intros w mlist plotcolor units Hu _.
    by apply sheet_resistance_valid_units.
  - intros w trace mlist plotcolor title Hd _.
    by apply trace_resistance_vs_width_plots.
Qed.

Lemma log10_transform_is_unchecked_witness :
  exists w',
    Plot2D_sheet_resistance (Some [zero_ohm_link]) "purple" units_mOhms
      a_fresh_world = (Ok tt, w') /\
    scattered (ax (self w'))
    = scattered (ax (self a_fresh_world))
      ++ [(map fst (flat_map (sheet_resistance_points units_mOhms)
                      [zero_ohm_link]),
           map np_log10
             (map snd (flat_map (sheet_resistance_points units_mOhms)
                         [zero_ohm_link])))].
Proof.
  apply (proj1 (proj2 (proj2 log10_transform_is_unchecked))
           a_fresh_world [zero_ohm_link] "purple" units_mOhms).
  - left. reflexivity.
  - apply nonzero_thicknessb_spec. vm_compute. reflexivity.
Defined.

(** A material of zero bulk resistivity: all twenty derived values are
    zero, the call returns normally and scatters twenty times -inf. *)
Lemma zero_resistance_is_transformed :
  let out := Plot2D_sheet_resistance (Some [zero_ohm_link]) "purple"
               units_mOhms a_fresh_world in
  List.length (sheet_resistance_values units_mOhms zero_ohm_link) = 20%nat /\
  Forall (fun v => v == 0) (sheet_resistance_values units_mOhms zero_ohm_link) /\
  fst out = Ok tt /\
  ~ terminates_process (fst out) /\
  scattered (ax (self (snd out)))
  = [(replicate 20 (inject_Z 45), replicate 20 neg_inf)].
Proof.
  split; [vm_compute; reflexivity|]. split.
  - apply List.Forall_forall. intros v Hv. apply Qeq_bool_iff.
    revert v Hv. apply forallb_forall. vm_compute. reflexivity.
  - split; [vm_compute; reflexivity|]. split.
    + vm_compute. intros H. exact H.
    + vm_compute. reflexivity.
Qed.

(** ** The statistics of [Plot2D.trace_resistance] *)

Lemma statistics_defined (pop : list Q) :
  (2 <= List.length pop)%nat ->
  exists a s lo hi,
    mean pop = Ok a /\ stdev pop = Ok s /\
    py_min pop = Ok lo /\ py_max pop = Ok hi.
Proof.
  intros H. unfold stdev, variance.
  assert (L : (List.length pop <? 2)%nat = false) by (apply Nat.ltb_ge; lia).
  rewrite L. destruct pop as [|x pop]; [cbn in H; lia|].
  by eexists _, _, _, _.
Qed.

Lemma trace_resistance_thlist_nonempty (m : Material) :
  exists th rest, trace_resistance_thlist m = th :: rest.
Proof.
  unfold trace_resistance_thlist. destruct (decide (cat m = metal)).
  - by eexists _, _.
  - pose proof (length_divide_interval (thickness m) 10) as H.
    destruct (divide_interval (thickness m) 10) as [|th rest];
      [discriminate H|]. by eexists _, _.
Qed.

Lemma trace_resistance_values_two (trace : Trace) (m : Material) :
  (2 <= List.length (trace_resistance_values trace m))%nat.
Proof.
  destruct (trace_resistance_thlist_nonempty m) as (th & rest & E).
  unfold trace_resistance_values, trace_resistance_points, sweep.
  rewrite E. cbn. rewrite !List.length_map, !List.length_app. cbn. lia.
Qed.

Lemma population_two (trace : Trace) (mlist : list Material) (m : Material) :
  last mlist = Some m ->
  (2 <= List.length (flat_map (trace_resistance_values trace) mlist))%nat.
Proof.
  intros H. apply last_Some in H as [l' ->].
  rewrite List.flat_map_app, List.length_app. cbn [flat_map].
  rewrite app_nil_r.
  pose proof (trace_resistance_values_two trace m). lia.
Qed.

Lemma trace_resistance_prints_no_stats (trace : Trace)
    (mlist : list Material) (l : printed) :
  In l (flat_map (trace_resistance_prints trace) mlist) -> is_stats l = false.
Proof.
  intros H. apply in_flat_map in H as (m & _ & H).
  unfold trace_resistance_prints, sweep in H.
  apply in_flat_map in H as (br & _ & H).
  apply in_flat_map in H as (th & _ & H).
  destruct (decide (cat m = metal)); cbn in H; [|contradiction].
  destruct H as [<-|[<-|[]]]; reflexivity.
Qed.

Lemma trace_resistance_summary_metal (m : Material) (ohms : list Q)
    (w : world) :
  cat m = metal -> trace_resistance_summary m ohms w = (Ok tt, w).
Proof.
  intros H. unfold trace_resistance_summary.
  destruct (decide (cat m <> metal)); [contradiction|reflexivity].
Qed.

Lemma trace_resistance_summary_other (m : Material) (ohms : list Q)
    (w : world) (a : Q) (s : root) (lo hi : Q) :
  cat m <> metal ->
  mean ohms = Ok a -> stdev ohms = Ok s ->
  py_min ohms = Ok lo -> py_max ohms = Ok hi ->
  trace_resistance_summary m ohms w
  = (Ok tt, emit [print_stats (Catname (cat m)) a s lo hi] w).
Proof.
  intros H Ea Es Elo Ehi. unfold trace_resistance_summary.
  destruct (decide (cat m <> metal)); [|contradiction].
  unfold bind, lift. by rewrite Ea, Es, Elo, Ehi.
Qed.

Lemma printed_since_emit (w w1 : world) (ls : list printed) :
  stdout w1 = stdout w -> printed_since w (emit ls w1) = ls.
Proof.
  intros H. unfold printed_since, emit. cbn. rewrite H.
  apply drop_app_length.
Qed.

Section trace_resistance_call.
Variable trace : Trace.
Hypothesis squares_dimensionless :
  pint.dimensionless (pint.units (squares trace)).
Variable w : world.
Variable mlist : list Material.
Variables plotcolor title : string.

Lemma trace_resistance_after_loop :
  let population := flat_map (trace_resistance_values trace) mlist in
  exists w1,
    stdout w1 = stdout w /\
    Plot2D_trace_resistance trace (Some mlist) plotcolor title w
    = (let* m := loop_variable mlist in
       trace_resistance_summary m population ;;
       ax_do [ scatter (map fst (flat_map (trace_resistance_points trace)
                                          mlist))
                       (map np_log10 population) plotcolor 64;
               yaxis_set_ticks [-1; 0; 1; 2; 3; 4; 5; 6];
               set_yticklabels
                 [ tick_num 0.1; tick_num 1; tick_num 10; tick_num 100;
                   tick_str "1K"; tick_str "10K"; tick_str "100K";
                   tick_str "1M" ] ])
        (emit (flat_map (trace_resistance_prints trace) mlist) w1).
Proof.
  intros population.
  destruct (trace_resistance_begin_quiet title w) as (w1 & Eb & Hout & _).
  exists w1. split; [exact Hout|].
  unfold Plot2D_trace_resistance. unfold bind at 1. rewrite Eb.
  unfold bind at 1.
  rewrite (trace_resistance_loop_appends trace squares_dimensionless).
  cbn [push3 fst snd app].
  rewrite (map_flat_map snd (trace_resistance_points trace)).
  reflexivity.
Qed.

(** What one call prints: the lines of the metals, then at most one line
    of statistics, taken over the values of all the materials. *)
Lemma trace_resistance_stdout :
  let out := Plot2D_trace_resistance trace (Some mlist) plotcolor title w in
  let population := flat_map (trace_resistance_values trace) mlist in
  exists stats_lines,
    printed_since w (snd out)
    = flat_map (trace_resistance_prints trace) mlist ++ stats_lines /\
    match last mlist with
    | None => fst out = Raised UnboundLocalError /\ stats_lines = []
    | Some m =>
        fst out = Ok tt /\
        if decide (cat m = metal) then stats_lines = []
        else exists a s lo hi,
            mean population = Ok a /\ stdev population = Ok s /\
            py_min population = Ok lo /\ py_max population = Ok hi /\
            stats_lines = [print_stats (Catname (cat m)) a s lo hi]
    end.
Proof.
  intros out population. subst out.
  destruct trace_resistance_after_loop as (w1 & Hout & E).
  fold population in E. rewrite E. clear E.
  unfold bind at 1 3. unfold loop_variable.
  destruct (last mlist) as [m|] eqn:El.
  - unfold ret at 1 2.
    destruct (decide (cat m = metal)) as [Hm|Hm].
    + unfold bind. rewrite trace_resistance_summary_metal by exact Hm.
      exists []. rewrite app_nil_r. split; [|done].
      cbn [snd ax_do]. unfold printed_since. rewrite stdout_draw.
      by apply printed_since_emit.
    + destruct (statistics_defined population)
        as (a & s & lo & hi & Ea & Es & Elo & Ehi).
      { by apply (population_two trace mlist m). }
      unfold bind.
      rewrite (trace_resistance_summary_other m population _ a s lo hi)
        by assumption.
      exists [print_stats (Catname (cat m)) a s lo hi]. split.
      * cbn [snd ax_do]. unfold printed_since. rewrite stdout_draw.
        rewrite emit_emit. by apply printed_since_emit.
      * split; [reflexivity|]. by exists a, s, lo, hi.
  - exists []. rewrite app_nil_r. split; [|done].
    cbn [snd raise lift]. by apply printed_since_emit.
Qed.

End trace_resistance_call.

(** C10, as the code has it: when the squares of the trace are a pure
    number (so that the conversion to Ohm succeeds) and no thickness
    sample is zero (so that every derived value is a finite number), in
    one call of the trace-resistance operation the statistics are taken
    over the derived values of every material of the list, in order and
    never reset between materials; and a line of statistics is printed
    exactly when the list is non-empty and the category of its last
    material is not metal. *)
Theorem trace_resistance_statistics (trace : Trace) (w : world)
    (mlist : list Material) (plotcolor title : string) :
  pint.dimensionless (pint.units (squares trace)) ->
  nonzero_thickness trace_resistance_thlist mlist ->
  let out := Plot2D_trace_resistance trace (Some mlist) plotcolor title w in
  let new := printed_since w (snd out) in
  let population := flat_map (trace_resistance_values trace) mlist in
  ((exists l, In l new /\ is_stats l = true) <->
   (mlist <> [] /\ exists m, last mlist = Some m /\ cat m <> metal)) /\
  (forall c a s lo hi,
      In (print_stats c a s lo hi) new ->
      mean population = Ok a /\ stdev population = Ok s /\
      py_min population = Ok lo /\ py_max population = Ok hi).
Proof.
  intros Hd _ out new population.
  destruct (trace_resistance_stdout trace Hd w mlist plotcolor title)
    as (sl & Hnew & Hcase).
  fold out new population in Hnew, Hcase.
  assert (Hprints : forall l, In l new -> is_stats l = true -> In l sl).
  { intros l Hl Hs. rewrite Hnew in Hl. apply in_app_or in Hl as [Hl|Hl].
    - apply trace_resistance_prints_no_stats in Hl. congruence.
    - exact Hl. }
  split; [split|].
  - intros (l & Hl & Hs). specialize (Hprints l Hl Hs).
    destruct (last mlist) as [m|] eqn:El.
    + split; [by intros ->|]. exists m. split; [reflexivity|].
      destruct Hcase as [_ Hsl]. destruct (decide (cat m = metal)).
      * subst sl. contradiction.
      * assumption.
    + destruct Hcase as [_ ->]. contradiction.
  - intros (_ & m & El & Hm). rewrite El in Hcase.
    destruct Hcase as [_ Hsl]. rewrite decide_False in Hsl by exact Hm.
    destruct Hsl as (a & s & lo & hi & _ & _ & _ & _ & ->).
    exists (print_stats (Catname (cat m)) a s lo hi).
    split; [|reflexivity].
    rewrite Hnew. apply in_or_app. right. by left.
  - intros c a s lo hi Hl. specialize (Hprints _ Hl eq_refl).
    destruct (last mlist) as [m|] eqn:El.
    + destruct Hcase as [_ Hsl]. destruct (decide (cat m = metal)).
      * subst sl. contradiction.
      * destruct Hsl as (a' & s' & lo' & hi' & Ea & Es & Elo & Ehi & ->).
        destruct Hprints as [E|[]]. by injection E as <- <- <- <- <-.
    + destruct Hcase as [_ ->]. contradiction.
Qed.

Lemma heater_trace_dimensionless :
  pint.dimensionless (pint.units (squares heater_trace)).
Proof. split; reflexivity. Qed.

Lemma trace_resistance_statistics_witness :
  (exists l,
      In l (printed_since a_fresh_world
              (snd (Plot2D_trace_resistance heater_trace (Some byaerosol)
                      "orange" "Heater Trace" a_fresh_world))) /\
      is_stats l = true) <->
  (byaerosol <> [] /\ exists m, last byaerosol = Some m /\ cat m <> metal).
Proof.
  apply (proj1 (trace_resistance_statistics heater_trace a_fresh_world
                  byaerosol "orange" "Heater Trace"
                  ltac:(split; reflexivity)
                  ltac:(apply nonzero_thicknessb_spec; vm_compute;
                        reflexivity))).
Defined.

(** With a trace whose width was given in Ohm the conversion to Ohm
    raises pint's DimensionalityError at the first point: for the
    aerosol inks of the catalog, a non-empty list ending in a material
    that is not a metal, the call ends in that error and prints no
    statistics. *)
Lemma dimensioned_squares_print_no_statistics :
  let out := Plot2D_trace_resistance ohm_wide_trace (Some byaerosol)
               "orange" "Resistances of Trace" a_fresh_world in
  ~ pint.dimensionless (pint.units (squares ohm_wide_trace)) /\
  byaerosol <> [] /\
  (exists m, last byaerosol = Some m /\ cat m <> metal) /\
  fst out = Raised DimensionalityError /\
  printed_since a_fresh_world (snd out) = [] /\
  ~ (exists l, In l (printed_since a_fresh_world (snd out)) /\
               is_stats l = true).
Proof.
  assert (E : printed_since a_fresh_world
                (snd (Plot2D_trace_resistance ohm_wide_trace
                        (Some byaerosol) "orange"
                        "Resistances of Trace" a_fresh_world)) = [])
    by (vm_compute; reflexivity).
  assert (L : exists m, last byaerosol = Some m /\ cat m = aerosol)
    by (eexists; split; [vm_compute; reflexivity|reflexivity]).
  cbv zeta. rewrite E.
  split; [intros [H _]; discriminate H|]. split.
  - intros N. destruct L as (m & Hm & _). rewrite N in Hm. discriminate Hm.
  - split.
    + destruct L as (m & Hm & Hc). exists m. split; [exact Hm|].
      rewrite Hc. discriminate.
    + split; [vm_compute; reflexivity|]. split; [reflexivity|].
      intros (l & [] & _).
Qed.

(** * Further properties of the code *)

(** ** The plot indices of a catalog *)

Lemma build_cons (r : row) (rows : list row) (idx : gmap Category Z) :
  build (r :: rows) idx
  = ({| cat := row_cat r; name := row_name r; r_bulk := row_r_bulk r;
        r_sheet := None; thickness := row_thickness r;
        index := fst (indexer (row_cat r) idx) |}
       :: fst (build rows (snd (indexer (row_cat r) idx))),
     snd (build rows (snd (indexer (row_cat r) idx)))).
Proof.
  cbn [build]. unfold Material_init.
  destruct (indexer (row_cat r) idx) as [i idx1]. cbn [fst snd].
  by destruct (build rows idx1).
Qed.

Lemma indexer_fst (c : Category) (idx : gmap Category Z) :
  fst (indexer c idx) = next_index idx c.
Proof.
  unfold next_index. destruct (idx !! c) as [i|] eqn:E.
  - apply (indexer_next _ _ _ E).
  - apply (indexer_first _ _ E).
Qed.

Lemma indexer_snd_same (c : Category) (idx : gmap Category Z) :
  next_index (snd (indexer c idx)) c = (next_index idx c + 1)%Z.
Proof.
  unfold next_index at 1. destruct (idx !! c) as [i|] eqn:E.
  - rewrite (proj2 (indexer_next _ _ _ E)). unfold next_index. by rewrite E.
  - rewrite (proj2 (indexer_first _ _ E)). unfold next_index. by rewrite E.
Qed.

Lemma indexer_snd_other (c c' : Category) (idx : gmap Category Z) :
  c <> c' -> next_index (snd (indexer c idx)) c' = next_index idx c'.
Proof. intros H. unfold next_index. by rewrite indexer_other. Qed.

Lemma build_index_from (rows : list row) (idx : gmap Category Z)
    (c : Category) (k : nat) (m : Material) :
  filter (fun x => cat x = c) (fst (build rows idx)) !! k = Some m ->
  index m = (next_index idx c + Z.of_nat k)%Z.
Proof.
  revert idx k m. induction rows as [|r rows IH]; intros idx k m H.
  - discriminate H.
  - rewrite build_cons in H. cbn [fst] in H. rewrite indexer_fst in H.
    rewrite filter_cons in H. cbn [cat] in H.
    destruct (decide (row_cat r = c)) as [<-|Hc].
    + destruct k as [|k].
      * injection H as <-. cbn [index]. lia.
      * rewrite lookup_cons in H. apply IH in H.
        rewrite H, indexer_snd_same. lia.
    + apply IH in H. rewrite H. by rewrite indexer_snd_other.
Qed.

(** X1: whatever the table, the k-th material of a category (counting
    from 0, in table order) gets the plot index 20 * category + k. *)
Theorem build_index_by_rank (rows : list row) (c : Category) (k : nat)
    (m : Material) :
  filter (fun x => cat x = c) (fst (build rows ∅)) !! k = Some m ->
  index m = (20 * Category_int c + Z.of_nat k)%Z.
Proof.
  intros H. apply build_index_from in H. rewrite H.
  unfold next_index. by rewrite lookup_empty.
Qed.

Lemma build_index_by_rank_witness :
  exists m, by_category screen !! 5%nat = Some m /\ index m = 85%Z.
Proof.
  eexists. split; [vm_compute; reflexivity|].
  apply (build_index_by_rank table screen 5). vm_compute. reflexivity.
Defined.

Lemma build_filter_length (rows : list row) (idx : gmap Category Z)
    (c : Category) :
  List.length (filter (fun x => cat x = c) (fst (build rows idx)))
  = rows_of c rows.
Proof.
  unfold rows_of. revert idx.
  induction rows as [|r rows IH]; intros idx; [reflexivity|].
  rewrite build_cons. cbn [fst]. rewrite !filter_cons. cbn [cat].
  destruct (decide (row_cat r = c)); cbn [List.length]; by rewrite IH.
Qed.

Lemma filter_rank {A} (P : A -> Prop) `{!forall x, Decision (P x)}
    (l : list A) (i : nat) (x : A) :
  l !! i = Some x -> P x ->
  filter P l !! List.length (filter P (take i l)) = Some x.
Proof.
  intros Hx HP. pose proof (take_drop_middle l i x Hx) as E.
  set (t := take i l) in *. set (d := drop (S i) l) in *. rewrite <- E.
  rewrite filter_app, filter_cons_True by exact HP.
  rewrite lookup_app_r by lia. by rewrite Nat.sub_diag.
Qed.

Lemma filter_rank_lt {A} (P : A -> Prop) `{!forall x, Decision (P x)}
    (l : list A) (i j : nat) (x : A) :
  (i < j)%nat -> l !! i = Some x -> P x ->
  (List.length (filter P (take i l)) < List.length (filter P (take j l)))%nat.
Proof.
  revert i j. induction l as [|a l IH]; intros i j Hij Hx HP.
  - discriminate Hx.
  - destruct j as [|j]; [lia|]. destruct i as [|i].
    + injection Hx as ->. cbn [take]. rewrite filter_cons_True by exact HP.
      cbn. lia.
    + cbn [take]. rewrite !filter_cons.
      assert (Hl : (List.length (filter P (take i l))
                    < List.length (filter P (take j l)))%nat)
        by (apply IH; [lia|exact Hx|exact HP]).
      destruct (decide (P a)); cbn [List.length]; lia.
Qed.

Lemma Category_int_inj (c c' : Category) :
  Category_int c = Category_int c' -> c = c'.
Proof. by destruct c, c'. Qed.

Lemma build_index_differs (rows : list row) (i j : nat) (mi mj : Material) :
  (forall c, (rows_of c rows <= 20)%nat) ->
  (i < j)%nat ->
  fst (build rows ∅) !! i = Some mi ->
  fst (build rows ∅) !! j = Some mj ->
  index mi <> index mj.
Proof.
  intros Hrows Hij Hi Hj E.
  pose proof (filter_rank (fun x => cat x = cat mi) _ i mi Hi eq_refl) as Ri.
  pose proof (filter_rank (fun x => cat x = cat mj) _ j mj Hj eq_refl) as Rj.
  pose proof (lookup_lt_Some _ _ _ Ri) as Li.
  pose proof (lookup_lt_Some _ _ _ Rj) as Lj.
  rewrite build_filter_length in Li, Lj.
  pose proof (Hrows (cat mi)) as Bi. pose proof (Hrows (cat mj)) as Bj.
  apply build_index_from in Ri, Rj.
  unfold next_index in Ri, Rj. rewrite lookup_empty in Ri, Rj.
  assert (Hc : cat mi = cat mj) by (apply Category_int_inj; lia).
  pose proof (filter_rank_lt (fun x => cat x = cat mi) _ i j mi Hij Hi eq_refl)
    as Hlt.
  rewrite Hc in *. lia.
Qed.

(** X2: plot indices identify materials as long as no category has more
    than 20 rows: the indices of the catalog built from such a table are
    pairwise distinct. *)
Theorem build_indices_distinct (rows : list row) :
  (forall c, (rows_of c rows <= 20)%nat) ->
  NoDup (map index (fst (build rows ∅))).
Proof.
  intros Hrows. apply NoDup_alt. intros i j z Hi Hj.
  rewrite map_fmap, list_lookup_fmap in Hi, Hj.
  destruct (fst (build rows ∅) !! i) as [mi|] eqn:Ei; [|discriminate Hi].
  destruct (fst (build rows ∅) !! j) as [mj|] eqn:Ej; [|discriminate Hj].
  injection Hi as Hi. injection Hj as Hj.
  destruct (Nat.lt_trichotomy i j) as [H|[H|H]]; [|exact H|].
  - exfalso. apply (build_index_differs rows i j mi mj); try assumption.
    congruence.
  - exfalso. apply (build_index_differs rows j i mj mi); try assumption.
    congruence.
Qed.

Lemma build_indices_distinct_witness : NoDup (map index matls).
Proof.
  apply (build_indices_distinct table). intros c.
  destruct c; vm_compute; lia.
Defined.

(** With a 21st row in a category the indices collide: the 21st metal
    gets 40, the index of the first flexographic ink. *)
Lemma build_indices_collide :
  let rows := List.repeat (metal_row "m" 1.00) 21
              ++ [mkRow flexo "f" (V BR 8.00 7.00 9.00)
                        (V TH 0.510 0.120 0.900)] in
  index <$> fst (build rows ∅) !! 20%nat = Some 40%Z /\
  index <$> fst (build rows ∅) !! 21%nat = Some 40%Z.
Proof. vm_compute. split; reflexivity. Qed.

(** ** Lookup by name *)

Lemma byname_dict : byname = dict_by_name matls.
Proof. unfold byname, dict_by_name. exact eq_refl. Qed.

(** X4: the dictionary by name maps a name to the last material of the
    list that carries it, and has no entry for a name that no material
    carries. *)
Theorem dict_by_name_lookup (ms : list Material) (n : string) :
  dict_by_name ms !! n = last (filter (fun m => name m = n) ms).
Proof.
  unfold dict_by_name. induction ms as [|m ms IH] using rev_ind.
  - reflexivity.
  - rewrite rev_unit. cbn [map]. rewrite list_to_map_cons. cbn [fst snd].
    rewrite filter_app, filter_cons, filter_nil.
    rewrite lookup_insert. destruct (decide (name m = n)) as [E|E].
    + by rewrite last_snoc.
    + by rewrite app_nil_r.
Qed.

(** X5: when the names of a list are pairwise distinct, every material
    of the list is found under its own name. *)
Theorem dict_by_name_finds (ms : list Material) (m : Material) :
  NoDup (map name ms) -> In m ms -> dict_by_name ms !! name m = Some m.
Proof.
  intros Hnd Hin. unfold dict_by_name.
  apply elem_of_list_to_map_1.
  - rewrite <- map_fmap, List.map_map. cbn [fst].
    rewrite List.map_rev.
    by rewrite <- (Permutation.Permutation_rev (map name ms)).
  - rewrite map_fmap. apply list_elem_of_fmap. exists m. split; [done|].
    rewrite list_elem_of_In, <- in_rev. exact Hin.
Qed.

Lemma dict_by_name_finds_witness :
  exists m, byname !! "hps-fg57b" = Some m /\ name m = "hps-fg57b".
Proof.
  assert (exists m, nth_error matls 28 = Some m /\ name m = "hps-fg57b")
    as (m & Hm & Hn)
    by (eexists; split; [vm_compute; reflexivity|reflexivity]).
  exists m. split; [|exact Hn]. rewrite <- Hn, byname_dict.
  apply (dict_by_name_finds matls m).
  - apply (bool_decide_unpack _). vm_compute. exact I.
  - exact (nth_error_In matls 28 Hm).
Defined.

(** ** Sheet and trace resistance as functions *)

(** X6: for a thickness that is not zero, [calc_sr] and [calc_sr_units]
    do not raise: a bulk resistivity in uOhm.cm over a thickness in um
    converts to mOhm, and the magnitude is ten times the ratio of the two
    arguments. *)
Theorem calc_sr_value (br th : Q) :
  ~ th == 0 ->
  exists sr,
    calc_sr_units br th = Ok sr /\
    calc_sr br th = Ok (pint.magnitude sr) /\
    pint.units sr = pint.units SR /\
    pint.magnitude sr == 10 * (br / th).
Proof.
  intros Hth. eexists. split; [reflexivity|]. split; [reflexivity|].
  split; [reflexivity|]. cbn. field. lra.
Qed.

Lemma calc_sr_value_witness :
  exists sr,
    calc_sr_units 1.70 34.8 = Ok sr /\
    calc_sr 1.70 34.8 = Ok (pint.magnitude sr) /\
    pint.units sr = pint.units SR /\
    pint.magnitude sr == 10 * (1.70 / 34.8).
Proof.
  apply (calc_sr_value 1.70 34.8). intros E. discriminate E.
Defined.



Lemma calc_tr_formula (trace : Trace) (br th : Q) :
  pint.dimensionless (pint.units (squares trace)) ->
  exists tr,
    calc_tr trace br th = Ok tr /\
    pint.units tr = pint.ohm /\
    pint.magnitude tr
    == 10 * (br / th) * pint.magnitude (squares trace)
       * pint.factor (pint.units (squares trace)) / 1000.
Proof.
  intros Hd.
  destruct (calc_tr_dimensionless trace br th Hd) as (tr & E & Hm).
  exists tr. split; [exact E|].
  unfold calc_tr in E.
  change (calc_sr_units br th)
    with (Ok (pint.convert (pint.div (pint.rmul br BR) (pint.rmul th TH))
                           (pint.units SR))) in E.
  cbn [result_bind] in E. unfold pint.to in E.
  destruct (pint.same_dimension _ _); [|discriminate E].
  injection E as <-. split; [reflexivity|].
  destruct (calc_sr_units_ok br th) as (sr & Es & _ & Hs).
  injection Es as <-. cbn in Hs. cbn.
  set (m := pint.magnitude (squares trace)) in *.
  set (f := pint.factor (pint.units (squares trace))) in *.
  rewrite Hs. set (r := br / th). field.
Qed.

(** X8: when the squares of the trace are a pure number and the
    thickness is not zero, the trace resistance does not raise and is, in
    Ohm, the sheet resistance in mOhm times the squares, rescaled by the
    factor of the squares' units, over 1000. *)
Theorem calc_tr_value (trace : Trace) (br th : Q) :
  pint.dimensionless (pint.units (squares trace)) ->
  ~ th == 0 ->
  exists tr,
    calc_tr trace br th = Ok tr /\
    pint.units tr = pint.ohm /\
    pint.magnitude tr
    == 10 * (br / th) * pint.magnitude (squares trace)
       * pint.factor (pint.units (squares trace)) / 1000.
Proof. intros Hd _. by apply calc_tr_formula. Qed.

Lemma calc_tr_value_witness :
  exists tr, calc_tr heater_trace 1.70 34.8 = Ok tr /\
             pint.units tr = pint.ohm.
Proof.
  destruct (calc_tr_value heater_trace 1.70 34.8) as (tr & E & Hu & _).
  - split; reflexivity.
  - intros E. discriminate E.
  - exists tr. by split.
Defined.

Lemma calc_tr_incompatible (trace : Trace) (br th : Q) :
  ~ pint.dimensionless (pint.units (squares trace)) ->
  calc_tr trace br th = Raised DimensionalityError.
Proof.
  intros Hd. unfold calc_tr.
  change (calc_sr_units br th)
    with (Ok (pint.convert (pint.div (pint.rmul br BR) (pint.rmul th TH))
                           (pint.units SR))).
  cbn [result_bind]. unfold pint.to.
  destruct (pint.same_dimension _ _) eqn:E; [|reflexivity].
  exfalso. apply Hd. unfold pint.same_dimension in E.
  apply andb_true_iff in E as [E1 E2].
  apply Z.eqb_eq in E1, E2. cbn in E1, E2.
  split; lia.
Qed.

(** X9: when the squares of the trace carry a dimension, as with a
    length over a resistance, the conversion to Ohm raises pint's
    DimensionalityError for every bulk resistivity and thickness. *)
Theorem calc_tr_raises (trace : Trace) (br th : Q) :
  ~ pint.dimensionless (pint.units (squares trace)) ->
  calc_tr trace br th = Raised DimensionalityError.
Proof. apply calc_tr_incompatible. Qed.

Lemma calc_tr_raises_witness :
  calc_tr ohm_wide_trace 1.70 34.8 = Raised DimensionalityError.
Proof.
  apply calc_tr_raises. intros [H _]. discriminate H.
Defined.

(** ** More on the interval sampler *)

Lemma divide_interval_lookup (q : Value) (N i : nat) :
  (2 <= N)%nat -> (i < N)%nat ->
  exists x,
    divide_interval q N !! i = Some x /\
    x == pint.magnitude (valmin q)
         + inject_Z (Z.of_nat i)
           * ((pint.magnitude (valmax q) - pint.magnitude (valmin q))
              / inject_Z (Z.of_nat N - 1)).
Proof.
  intros HN Hi.
  destruct (Qeq_dec (pint.magnitude (valmin q)) (pint.magnitude (valmax q)))
    as [E|E].
  - destruct (lookup_lt_is_Some_2 (divide_interval q N) i) as [x Hx].
    { by rewrite length_divide_interval. }
    exists x. split; [exact Hx|].
    rewrite (divide_interval_equal_bounds q N i x E Hx).
    assert (Z0 : pint.magnitude (valmax q) - pint.magnitude (valmin q) == 0)
      by lra.
    rewrite Z0. unfold Qdiv. ring.
  - rewrite divide_interval_distinct_bounds by exact E.
    by apply np_linspace_lookup.
Qed.

(** X10: with at least two points the samples are evenly spaced: sample
    [i] is min + i * (max - min)/(N - 1), whether or not the bounds
    coincide. *)
Theorem divide_interval_evenly_spaced (q : Value) (N i : nat) :
  (2 <= N)%nat -> (i < N)%nat ->
  exists x,
    divide_interval q N !! i = Some x /\
    x == pint.magnitude (valmin q)
         + inject_Z (Z.of_nat i)
           * ((pint.magnitude (valmax q) - pint.magnitude (valmin q))
              / inject_Z (Z.of_nat N - 1)).
Proof. apply divide_interval_lookup. Qed.

Lemma divide_interval_evenly_spaced_witness :
  exists x, divide_interval (V TH 15.0 5.0 30.0) 6 !! 2%nat = Some x /\
            x == 15.
Proof.
  destruct (divide_interval_evenly_spaced (V TH 15.0 5.0 30.0) 6 2)
    as (x & Hx & E); [lia..|].
  exists x. split; [exact Hx|]. rewrite E. reflexivity.
Defined.

Lemma divide_interval_single (q : Value) (x : Q) :
  divide_interval q 1 !! 0%nat = Some x -> x == pint.magnitude (valmin q).
Proof.
  intros Hx.
  destruct (Qeq_dec (pint.magnitude (valmin q)) (pint.magnitude (valmax q)))
    as [E|E].
  - by rewrite (divide_interval_equal_bounds q 1 0 x E Hx).
  - rewrite divide_interval_distinct_bounds in Hx by exact E.
    destruct (np_linspace_one (pint.magnitude (valmin q))
                (pint.magnitude (valmax q))) as (y & Ey & Hy).
    rewrite Ey in Hx. injection Hx as <-. exact Hy.
Qed.

Lemma divide_interval_bounded (q : Value) (N i : nat) (x : Q) :
  pint.magnitude (valmin q) <= pint.magnitude (valmax q) ->
  divide_interval q N !! i = Some x ->
  pint.magnitude (valmin q) <= x /\ x <= pint.magnitude (valmax q).
Proof.
  intros Hle Hx.
  assert (Hi : (i < N)%nat).
  { apply lookup_lt_Some in Hx. by rewrite length_divide_interval in Hx. }
  destruct (decide (N = 1%nat)) as [->|Hn].
  - assert (i = 0%nat) as -> by lia.
    apply divide_interval_single in Hx. rewrite Hx. lra.
  - destruct (divide_interval_lookup q N i) as (y & Ey & Hy); [lia..|].
    rewrite Hx in Ey. injection Ey as <-.
    set (lo := pint.magnitude (valmin q)) in *.
    set (hi := pint.magnitude (valmax q)) in *.
    set (d := inject_Z (Z.of_nat N - 1)) in *.
    assert (Hd : 0 < d).
    { unfold d. replace 0 with (inject_Z 0) by reflexivity.
      rewrite <- Zlt_Qlt. lia. }
    assert (Hs : 0 <= (hi - lo) / d) by (apply Qle_shift_div_l; lra).
    assert (H0 : 0 <= inject_Z (Z.of_nat i)).
    { replace 0 with (inject_Z 0) by reflexivity. rewrite <- Zle_Qle. lia. }
    assert (H1 : inject_Z (Z.of_nat i) <= d).
    { unfold d. rewrite <- Zle_Qle. lia. }
    assert (Hup : inject_Z (Z.of_nat i) * ((hi - lo) / d) <= hi - lo).
    { assert (E : hi - lo == d * ((hi - lo) / d)) by (field; lra).
      rewrite E at 2. by apply Qmult_le_compat_r. }
    assert (Hlow : 0 <= inject_Z (Z.of_nat i) * ((hi - lo) / d))
      by (by apply Qmult_le_0_compat).
    rewrite Hy. lra.
Qed.

(** X11: when min <= max every sample lies between min and max, for
    every count. *)
Theorem divide_interval_within_bounds (q : Value) (N i : nat) (x : Q) :
  pint.magnitude (valmin q) <= pint.magnitude (valmax q) ->
  divide_interval q N !! i = Some x ->
  pint.magnitude (valmin q) <= x /\ x <= pint.magnitude (valmax q).
Proof. apply divide_interval_bounded. Qed.

Lemma divide_interval_within_bounds_witness :
  exists x, divide_interval (V TH 15.0 5.0 30.0) 10 !! 3%nat = Some x /\
            5.0 * 1 <= x /\ x <= 30.0 * 1.
Proof.
  assert (exists x, divide_interval (V TH 15.0 5.0 30.0) 10 !! 3%nat = Some x)
    as [x Hx] by (eexists; vm_compute; reflexivity).
  exists x. split; [exact Hx|].
  apply (divide_interval_within_bounds (V TH 15.0 5.0 30.0) 10 3 x).
  - apply Qle_bool_iff. reflexivity.
  - exact Hx.
Defined.

(** ** [print_sheet_resistance] *)

Lemma length_flat_map_const {A B} (f : A -> list B) (k : nat) (l : list A) :
  (forall a, List.length (f a) = k) ->
  List.length (flat_map f l) = (List.length l * k)%nat.
Proof.
  intros H. induction l as [|a l IH]; [reflexivity|].
  cbn [flat_map]. rewrite List.length_app, H, IH. cbn. lia.
Qed.

(** X13: [print_sheet_resistance] returns normally and makes one print
    call for each pair of samples of the bulk-resistivity interval, 100
    in all: the thickness column is filled from the bulk resistivity too,
    so two materials with the same bulk resistivity print the same table
    whatever their thickness.  When no sample is zero, each call prints
    the two samples and the sheet resistance computed from them. *)
Theorem print_sheet_resistance_table (m : Material) (w : world) :
  exists lines,
    print_sheet_resistance m w = (Ok tt, emit lines w) /\
    List.length lines = 100%nat /\
    (Forall (fun v => ~ v == 0) (divide_interval (r_bulk m) 10) ->
     lines = sheet_resistance_table (divide_interval (r_bulk m) 10)) /\
    forall m', r_bulk m' = r_bulk m ->
               print_sheet_resistance m' w = print_sheet_resistance m w.
Proof.
  assert (Hrun : forall m0 w0,
    print_sheet_resistance m0 w0
    = (Ok tt, emit (sheet_resistance_table (divide_interval (r_bulk m0) 10))
                   w0)).
  { intros m0 w0. unfold print_sheet_resistance, sheet_resistance_table.
    apply (for_each_appends push0 (fun _ => eq_refl) (fun _ _ _ => eq_refl)
             _ (fun _ => [])).
    intros [] br w1.
    apply (for_each_appends push0 (fun _ => eq_refl) (fun _ _ _ => eq_refl)
             _ (fun _ => [])).
    intros [] th w2. reflexivity. }
  exists (sheet_resistance_table (divide_interval (r_bulk m) 10)).
  split; [apply Hrun|]. split; [|split].
  - unfold sheet_resistance_table.
    rewrite (length_flat_map_const _ 10).
    + by rewrite length_divide_interval.
    + intros br. rewrite (length_flat_map_const _ 1) by reflexivity.
      rewrite length_divide_interval. reflexivity.
  - reflexivity.
  - intros m' E. by rewrite !Hrun, E.
Qed.

Lemma print_sheet_resistance_table_witness :
  print_sheet_resistance
    (mkMaterial inkjet "ci-005" (V BR 9.00 9.00 9.00) None
                (V TH 1.000 0.200 2.000) 61) a_fresh_world
  = print_sheet_resistance
      (mkMaterial screen "psi-211" (V BR 9.00 9.00 9.00) None
                  (V TH 15.0 5.0 30.0) 87) a_fresh_world.
Proof.
  destruct (print_sheet_resistance_table
              (mkMaterial screen "psi-211" (V BR 9.00 9.00 9.00)
                          None (V TH 15.0 5.0 30.0) 87)
              a_fresh_world) as (lines & _ & _ & _ & H).
  apply H. reflexivity.
Defined.

(** ** [Plot2D.sheet_resistance] as a whole *)

Lemma sheet_resistance_begin_invalid (units : string) (w : world) :
  ~ valid_units units -> begin (self w) = true ->
  sheet_resistance_begin units w = (Ok Return, w).
Proof.
  intros Hu Hb. destruct (invalid_units_eqb units Hu) as [E1 E2].
  unfold sheet_resistance_begin, bind, get_begin.
  by rewrite Hb, E1, E2.
Qed.

(** X14: on a chart whose setup has not been done, a call with a units
    string outside the set returns normally and changes nothing, so the
    setup is still pending; hence a whole sequence of such calls, as a
    plotting scenario makes them, returns normally and leaves the chart
    empty of their data. *)
Theorem sheet_resistance_invalid_units_before_setup (units : string)
    (calls : list (option (list Material) * string)) (w : world) :
  ~ valid_units units -> begin (self w) = true ->
  for_each (fun _ call =>
              Plot2D_sheet_resistance (fst call) (snd call) units)
           tt calls w
  = (Ok tt, w).
Proof.
  intros Hu Hb. induction calls as [|[mlist plotcolor] calls IH].
  - reflexivity.
  - cbn [for_each fst snd]. unfold bind at 1.
    unfold Plot2D_sheet_resistance at 1. unfold bind at 1.
    rewrite sheet_resistance_begin_invalid by assumption.
    unfold ret at 1. exact IH.
Qed.

Lemma sheet_resistance_invalid_units_before_setup_witness :
  for_each (fun _ call =>
              Plot2D_sheet_resistance (fst call) (snd call) "kOhms/Sq")
           tt [ (Some bycopper, "gold"); (Some byflexo, "purple");
                (Some bycarbon, "gray") ] a_fresh_world
  = (Ok tt, a_fresh_world).
Proof.
  apply sheet_resistance_invalid_units_before_setup.
  - intros [H|H]; discriminate H.
  - reflexivity.
Defined.

Lemma length_sweep {B} (thlist : Material -> list Q) (f : Q -> Q -> list B)
    (k : nat) (m : Material) :
  (forall br th, List.length (f br th) = k) ->
  List.length (sweep thlist f m) = (2 * (List.length (thlist m) * k))%nat.
Proof.
  intros H. unfold sweep, brlist. cbn [flat_map].
  rewrite !List.length_app, !(length_flat_map_const _ k) by (intros; apply H).
  cbn. lia.
Qed.

Lemma length_per_material {B} (f : Material -> list B) (a b : nat)
    (mlist : list Material) :
  (forall m, List.length (f m) = if decide (cat m = metal) then a else b) ->
  List.length (flat_map f mlist)
  = (a * metals_in mlist + b * others_in mlist)%nat.
Proof.
  intros H. unfold metals_in, others_in.
  induction mlist as [|m mlist IH]; [cbn; lia|].
  cbn [flat_map]. rewrite List.length_app, H, IH, !filter_cons.
  destruct (decide (cat m = metal)) as [E|E].
  - rewrite decide_False by (intros N; by apply N). cbn. lia.
  - rewrite decide_True by exact E. cbn. lia.
Qed.

Lemma length_sheet_resistance_thlist (m : Material) :
  List.length (sheet_resistance_thlist m)
  = if decide (cat m = metal) then 4%nat else 10%nat.
Proof.
  unfold sheet_resistance_thlist. destruct (decide (cat m = metal)).
  - reflexivity.
  - apply length_divide_interval.
Qed.

Lemma length_sheet_resistance_points (units : string)
    (mlist : list Material) :
  List.length (flat_map (sheet_resistance_points units) mlist)
  = (8 * metals_in mlist + 20 * others_in mlist)%nat.
Proof.
  apply length_per_material. intros m. unfold sheet_resistance_points.
  rewrite (length_sweep _ _ 1) by reflexivity.
  rewrite length_sheet_resistance_thlist.
  by destruct (decide (cat m = metal)).
Qed.

Lemma length_sheet_resistance_prints (units : string)
    (mlist : list Material) :
  List.length (flat_map (sheet_resistance_prints units) mlist)
  = (8 * metals_in mlist)%nat.
Proof.
  rewrite (length_per_material _ 8 0); [lia|].
  intros m. unfold sheet_resistance_prints.
  destruct (decide (cat m = metal)) as [E|E].
  - rewrite (length_sweep _ _ 1) by reflexivity.
    rewrite length_sheet_resistance_thlist. by rewrite decide_True.
  - rewrite (length_sweep _ _ 0) by reflexivity. lia.
Qed.

Lemma sheet_resistance_begin_valid_state (units : string) (w : world) :
  valid_units units ->
  exists w1, sheet_resistance_begin units w = (Ok Continue, w1) /\
             stdout w1 = stdout w /\
             begin (self w1) = false /\
             scattered (ax (self w1)) = scattered (ax (self w)) /\
             (begin (self w) = false -> w1 = w).
Proof.
  intros Hu. unfold sheet_resistance_begin, bind, get_begin.
  destruct (begin (self w)) eqn:Hb.
  - destruct Hu as [-> | ->].
    + rewrite String.eqb_refl. cbn. eexists. split; [reflexivity|].
      repeat split; try done. cbn. rewrite scattered_app. cbn.
      by rewrite app_nil_r.
    + rewrite eqb_units_Ohms_mOhms, String.eqb_refl. cbn.
      eexists. split; [reflexivity|].
      repeat split; try done. cbn. rewrite scattered_app. cbn.
      by rewrite app_nil_r.
  - exists w. done.
Qed.

(** X15: with a valid units string the sheet-resistance call on a list
    returns normally on every chart and leaves the setup done.  It
    scatters one more series, of 8 points for each metal of the list and
    20 for each other material, and prints 8 lines for each metal and
    none for the other materials. *)
Theorem sheet_resistance_effect (w : world) (mlist : list Material)
    (plotcolor units : string) :
  valid_units units ->
  exists w' x y,
    Plot2D_sheet_resistance (Some mlist) plotcolor units w = (Ok tt, w') /\
    begin (self w') = false /\
    scattered (ax (self w')) = scattered (ax (self w)) ++ [(x, y)] /\
    List.length x = (8 * metals_in mlist + 20 * others_in mlist)%nat /\
    List.length y = List.length x /\
    List.length (printed_since w w') = (8 * metals_in mlist)%nat.
Proof.
  intros Hu.
  destruct (sheet_resistance_begin_valid_state units w Hu)
    as (w1 & Eb & Hout & Hbeg & Hs & _).
  set (pts := flat_map (sheet_resistance_points units) mlist).
  assert (E : exists w',
    Plot2D_sheet_resistance (Some mlist) plotcolor units w = (Ok tt, w') /\
    begin (self w') = false /\
    scattered (ax (self w'))
    = scattered (ax (self w)) ++ [(map fst pts, map np_log10 (map snd pts))] /\
    stdout w' = stdout w ++ flat_map (sheet_resistance_prints units) mlist).
  { unfold Plot2D_sheet_resistance. unfold bind at 1. rewrite Eb.
    unfold bind at 1. rewrite sheet_resistance_loop_appends by exact Hu.
    fold pts. cbn [push2 fst snd app]. rewrite <- Hs, <- Hout.
    destruct Hu as [-> | ->].
    - rewrite String.eqb_refl. eexists. split; [reflexivity|].
      split; [exact Hbeg|]. split; [|reflexivity].
      cbn. rewrite !scattered_app. cbn. by rewrite app_nil_r.
    - rewrite eqb_units_Ohms_mOhms, String.eqb_refl.
      eexists. split; [reflexivity|].
      split; [exact Hbeg|]. split; [|reflexivity].
      cbn. rewrite !scattered_app. cbn. by rewrite app_nil_r. }
  destruct E as (w' & E & Hb' & Hsc & Hso).
  exists w', (map fst pts), (map np_log10 (map snd pts)).
  split; [exact E|]. split; [exact Hb'|]. split; [exact Hsc|].
  rewrite !List.length_map. unfold pts.
  rewrite length_sheet_resistance_points.
  split; [reflexivity|]. split; [reflexivity|].
  unfold printed_since. rewrite Hso, drop_app_length.
  apply length_sheet_resistance_prints.
Qed.

Lemma sheet_resistance_effect_witness :
  exists w' x y,
    Plot2D_sheet_resistance (Some bycopper) "gold" units_Ohms a_fresh_world
    = (Ok tt, w') /\
    begin (self w') = false /\
    scattered (ax (self w')) = scattered (ax (self a_fresh_world)) ++ [(x, y)] /\
    List.length x = (8 * metals_in bycopper + 20 * others_in bycopper)%nat /\
    List.length y = List.length x /\
    List.length (printed_since a_fresh_world w') = (8 * metals_in bycopper)%nat.
Proof.
  apply (sheet_resistance_effect a_fresh_world bycopper "gold" units_Ohms).
  right. reflexivity.
Defined.

Lemma sheet_resistance_points_Ohms (mlist : list Material) :
  flat_map (sheet_resistance_points units_Ohms) mlist
  = map (fun p => (fst p, snd p / 1000.0))
        (flat_map (sheet_resistance_points units_mOhms) mlist).
Proof.
  rewrite map_flat_map. apply List.flat_map_ext. intros m.
  unfold sheet_resistance_points, sweep.
  rewrite map_flat_map. apply List.flat_map_ext. intros br.
  rewrite map_flat_map. apply List.flat_map_ext. intros th.
  reflexivity.
Qed.

(** X16: the two units strings plot the same points up to the scale:
    over the same list the loop gathers the same x values, and each y
    value gathered for "Ohms/Sq" is the one gathered for "mOhms/Sq"
    divided by 1000. *)
Theorem sheet_resistance_units_scale (mlist : list Material) (w : world) :
  exists x ym yo wm wo,
    sheet_resistance_loop units_mOhms mlist w = (Ok (x, ym), wm) /\
    sheet_resistance_loop units_Ohms mlist w = (Ok (x, yo), wo) /\
    Forall2 (fun o m => o == m / 1000) yo ym.
Proof.
  eexists _, _, _, _, _.
  rewrite !sheet_resistance_loop_appends by (by left) || (by right).
  rewrite sheet_resistance_points_Ohms. unfold push2. cbn [fst snd app].
  rewrite !List.map_map. cbn [fst snd].
  split; [reflexivity|]. split; [reflexivity|].
  induction (flat_map (sheet_resistance_points units_mOhms) mlist)
    as [|p l IH]; cbn [map]; constructor; [|exact IH].
  assert (E : 1000.0 == 1000) by reflexivity.
  by rewrite E.
Qed.

(** ** [Plot2D.thickness] *)

Lemma thickness_begin_state (w : world) :
  exists w1, thickness_begin w = (Ok tt, w1) /\
             stdout w1 = stdout w /\
             begin (self w1) = false /\
             scattered (ax (self w1)) = scattered (ax (self w)) /\
             (begin (self w) = false -> w1 = w).
Proof.
  unfold thickness_begin, bind, get_begin.
  destruct (begin (self w)) eqn:Hb.
  - eexists. split; [reflexivity|]. repeat split; try done.
    cbn. rewrite scattered_app. cbn. by rewrite app_nil_r.
  - exists w. done.
Qed.

Lemma thickness_loop_appends (mlist : list Material) (w : world) :
  thickness_loop mlist w
  = (Ok (push2 ([], []) (flat_map thickness_points mlist)), w).
Proof.
  unfold thickness_loop.
  apply (for_each_silent push2 _ _ push2_nil push2_push2).
  intros acc m w1. unfold thickness_points.
  apply (for_each_silent push2 _ _ push2_nil push2_push2).
  intros [xdata ydata] th w2. reflexivity.
Qed.

Lemma length_thickness_points (mlist : list Material) :
  List.length (flat_map thickness_points mlist)
  = (4 * metals_in mlist + 25 * others_in mlist)%nat.
Proof.
  apply length_per_material. intros m. unfold thickness_points.
  rewrite (length_flat_map_const _ 1) by reflexivity.
  unfold thickness_thlist. destruct (decide (cat m = metal)).
  - reflexivity.
  - rewrite length_divide_interval. reflexivity.
Qed.

Lemma thickness_points_values (mlist : list Material) :
  map snd (flat_map thickness_points mlist) = flat_map thickness_thlist mlist.
Proof.
  rewrite map_flat_map. apply List.flat_map_ext. intros m.
  unfold thickness_points. rewrite map_flat_map.
  change (flat_map (fun th : Q => [th]) (thickness_thlist m)
          = thickness_thlist m).
  induction (thickness_thlist m) as [|th l IH]; [reflexivity|].
  cbn [flat_map app]. by rewrite IH.
Qed.

(** X17: the thickness call on a list returns normally on every chart
    and for every list, prints nothing and leaves the setup done.  It
    scatters the log10 of the thickness samples, 4 for each metal and 25
    for each other material; on a chart whose setup was done before, the
    scatter and the two tick calls are all it adds. *)
Theorem thickness_effect (w : world) (mlist : list Material)
    (plotcolor : string) :
  exists w' x,
    Plot2D_thickness (Some mlist) plotcolor w = (Ok tt, w') /\
    begin (self w') = false /\
    stdout w' = stdout w /\
    scattered (ax (self w'))
    = scattered (ax (self w))
      ++ [(x, map np_log10 (flat_map thickness_thlist mlist))] /\
    List.length x = (4 * metals_in mlist + 25 * others_in mlist)%nat /\
    List.length (flat_map thickness_thlist mlist) = List.length x /\
    (begin (self w) = false ->
     exists ticks labels,
       ax (self w')
       = ax (self w)
         ++ [ scatter x (map np_log10 (flat_map thickness_thlist mlist))
                      plotcolor 64;
              yaxis_set_ticks ticks; set_yticklabels labels ]).
Proof.
  destruct (thickness_begin_state w) as (w1 & Eb & Hout & Hbeg & Hs & Hsame).
  rewrite <- thickness_points_values.
  set (pts := flat_map thickness_points mlist).
  exists (draw [ scatter (map fst pts) (map np_log10 (map snd pts))
                         plotcolor 64;
                 yaxis_set_ticks [-2; -1; 0; 1; 2; 2.3];
                 set_yticklabels
                   [ tick_num 0.01; tick_num 0.1; tick_num 1; tick_num 10;
                     tick_num 100; tick_num 200 ] ] w1),
         (map fst pts).
  split.
  { unfold Plot2D_thickness. unfold bind at 1. rewrite Eb.
    unfold bind at 1. rewrite thickness_loop_appends. reflexivity. }
  split; [exact Hbeg|]. split; [exact Hout|]. split.
  { cbn. rewrite scattered_app, Hs. reflexivity. }
  rewrite !List.length_map. unfold pts. rewrite length_thickness_points.
  split; [reflexivity|]. split; [reflexivity|].
  intros Hb. rewrite (Hsame Hb). by eexists _, _.
Qed.

Lemma thickness_effect_witness :
  exists w', Plot2D_thickness (Some bycopper) "gold" (began a_fresh_world)
             = (Ok tt, w') /\ begin (self w') = false.
Proof.
  destruct (thickness_effect (began a_fresh_world) bycopper "gold")
    as (w' & x & E & Hb & _ & _ & _ & _ & Hax).
  destruct (Hax eq_refl) as (ticks & labels & _).
  exists w'. by split.
Defined.

(** ** [Plot2D.trace_resistance] and [Plot2D.trace_resistance_vs_width]
       as a whole *)

Ltac begin_state w :=
  unfold bind, get_begin;
  let Hb := fresh "Hb" in
  destruct (begin (self w)) eqn:Hb;
  [ eexists; split; [reflexivity|]; repeat split; try done;
    cbn; rewrite scattered_app; cbn; by rewrite app_nil_r
  | exists w; done ].

Lemma trace_resistance_begin_state (title : string) (w : world) :
  exists w1, trace_resistance_begin title w = (Ok tt, w1) /\
             stdout w1 = stdout w /\
             begin (self w1) = false /\
             scattered (ax (self w1)) = scattered (ax (self w)) /\
             (begin (self w) = false -> w1 = w).
Proof. unfold trace_resistance_begin. begin_state w. Qed.

Lemma trace_resistance_vs_width_begin_state (title : string) (w : world) :
  exists w1, trace_resistance_vs_width_begin title w = (Ok tt, w1) /\
             stdout w1 = stdout w /\
             begin (self w1) = false /\
             scattered (ax (self w1)) = scattered (ax (self w)) /\
             (begin (self w) = false -> w1 = w).
Proof. unfold trace_resistance_vs_width_begin. begin_state w. Qed.

(** X18: with an empty list the trace-resistance call raises
    UnboundLocalError, for every trace: the setup has been done by then,
    and nothing is plotted or printed.  The same call of
    trace-resistance-vs-width returns normally and scatters an empty
    series. *)
Theorem trace_resistance_empty_list (trace : Trace) (w : world)
    (plotcolor title : string) :
  (exists w1,
      Plot2D_trace_resistance trace (Some []) plotcolor title w
      = (Raised UnboundLocalError, w1) /\
      begin (self w1) = false /\ stdout w1 = stdout w /\
      scattered (ax (self w1)) = scattered (ax (self w))) /\
  (exists w2,
      Plot2D_trace_resistance_vs_width trace (Some []) plotcolor title w
      = (Ok tt, w2) /\
      begin (self w2) = false /\ stdout w2 = stdout w /\
      scattered (ax (self w2)) = scattered (ax (self w)) ++ [([], [])]).
Proof.
  split.
  - destruct (trace_resistance_begin_state title w)
      as (w1 & Eb & Hout & Hbeg & Hs & _).
    exists w1. split; [|done].
    unfold Plot2D_trace_resistance. unfold bind at 1. by rewrite Eb.
  - destruct (trace_resistance_vs_width_begin_state title w)
      as (w1 & Eb & Hout & Hbeg & Hs & _).
    eexists. split.
    + unfold Plot2D_trace_resistance_vs_width. unfold bind at 1.
      rewrite Eb. reflexivity.
    + split; [exact Hbeg|]. split; [exact Hout|].
      cbn. rewrite scattered_app, Hs. reflexivity.
Qed.

Lemma trace_resistance_point_raises (trace : Trace) (m : Material)
    (br : pint.Quantity) (acc : list Q * list Q * list Q) (th : Q)
    (w : world) :
  ~ pint.dimensionless (pint.units (squares trace)) ->
  trace_resistance_point trace m br acc th w = (Raised DimensionalityError, w)
  /\ trace_resistance_vs_width_point trace m br acc th w
     = (Raised DimensionalityError, w).
Proof.
  intros Hd. destruct acc as [[xdata ydata] ohms].
  unfold trace_resistance_point, trace_resistance_vs_width_point, bind, lift.
  by rewrite (calc_tr_incompatible trace _ _ Hd).
Qed.

Lemma trace_resistance_vs_width_thlist_nonempty (m : Material) :
  exists th rest, trace_resistance_vs_width_thlist m = th :: rest.
Proof.
  unfold trace_resistance_vs_width_thlist.
  pose proof (length_divide_interval (thickness m) 10) as H.
  destruct (divide_interval (thickness m) 10) as [|th rest];
    [discriminate H|]. by eexists _, _.
Qed.

(** X19: with a trace whose squares carry a dimension and a non-empty
    list, both trace-resistance calls raise pint's DimensionalityError at
    the first point, after the setup and before anything is plotted or
    printed. *)
Theorem trace_resistance_bad_trace (trace : Trace) (w : world)
    (m : Material) (mlist : list Material) (plotcolor title : string) :
  ~ pint.dimensionless (pint.units (squares trace)) ->
  (exists w1,
      Plot2D_trace_resistance trace (Some (m :: mlist)) plotcolor title w
      = (Raised DimensionalityError, w1) /\
      stdout w1 = stdout w /\
      scattered (ax (self w1)) = scattered (ax (self w))) /\
  (exists w2,
      Plot2D_trace_resistance_vs_width trace (Some (m :: mlist)) plotcolor
        title w
      = (Raised DimensionalityError, w2) /\
      stdout w2 = stdout w /\
      scattered (ax (self w2)) = scattered (ax (self w))).
Proof.
  intros Hd. split.
  - destruct (trace_resistance_begin_state title w)
      as (w1 & Eb & Hout & _ & Hs & _).
    exists w1. split; [|done].
    destruct (trace_resistance_thlist_nonempty m) as (th & rest & E).
    unfold Plot2D_trace_resistance. unfold bind at 1. rewrite Eb.
    unfold bind at 1. unfold trace_resistance_loop.
    cbn [for_each brlist]. rewrite E. cbn [for_each].
    unfold bind at 1 2 3.
    by rewrite (proj1 (trace_resistance_point_raises trace m _ _ th w1 Hd)).
  - destruct (trace_resistance_vs_width_begin_state title w)
      as (w1 & Eb & Hout & _ & Hs & _).
    exists w1. split; [|done].
    destruct (trace_resistance_vs_width_thlist_nonempty m) as (th & rest & E).
    unfold Plot2D_trace_resistance_vs_width. unfold bind at 1. rewrite Eb.
    unfold bind at 1. unfold trace_resistance_vs_width_loop.
    cbn [for_each brlist]. rewrite E. cbn [for_each].
    unfold bind at 1 2 3.
    by rewrite (proj2 (trace_resistance_point_raises trace m _ _ th w1 Hd)).
Qed.

Lemma trace_resistance_bad_trace_witness :
  exists w1,
    Plot2D_trace_resistance ohm_wide_trace
      (Some [zero_ohm_link]) "gray" "t" a_fresh_world
    = (Raised DimensionalityError, w1) /\
    stdout w1 = stdout a_fresh_world /\
    scattered (ax (self w1)) = scattered (ax (self a_fresh_world)).
Proof.
  apply (proj1 (trace_resistance_bad_trace ohm_wide_trace
                  a_fresh_world zero_ohm_link [] "gray" "t"
                  ltac:(intros [H _]; discriminate H))).
Defined.

Lemma length_trace_resistance_thlist (m : Material) :
  List.length (trace_resistance_thlist m)
  = if decide (cat m = metal) then 4%nat else 10%nat.
Proof.
  unfold trace_resistance_thlist. destruct (decide (cat m = metal)).
  - reflexivity.
  - apply length_divide_interval.
Qed.

Lemma length_trace_resistance_points (trace : Trace)
    (mlist : list Material) :
  List.length (flat_map (trace_resistance_points trace) mlist)
  = (8 * metals_in mlist + 20 * others_in mlist)%nat.
Proof.
  apply length_per_material. intros m. unfold trace_resistance_points.
  rewrite (length_sweep _ _ 1) by reflexivity.
  rewrite length_trace_resistance_thlist.
  by destruct (decide (cat m = metal)).
Qed.

Lemma length_trace_resistance_prints (trace : Trace)
    (mlist : list Material) :
  List.length (flat_map (trace_resistance_prints trace) mlist)
  = (16 * metals_in mlist)%nat.
Proof.
  rewrite (length_per_material _ 16 0); [lia|].
  intros m. unfold trace_resistance_prints.
  destruct (decide (cat m = metal)) as [E|E].
  - rewrite (length_sweep _ _ 2) by reflexivity.
    rewrite length_trace_resistance_thlist. by rewrite decide_True.
  - rewrite (length_sweep _ _ 0) by reflexivity. lia.
Qed.

(** X20: with a trace whose squares are a pure number and a non-empty
    list none of whose thickness samples is zero, the trace-resistance
    call returns normally: the statistics always have the two values
    they need.  It leaves the setup done, scatters one series of 8
    points for each metal and 20 for each other material, and makes two
    print calls for each point of a metal (the name and thickness, ended
    by a tab, then the resistance: 16 calls and 8 lines of output for a
    metal), followed by one call for the statistics when the last
    material is not a metal. *)
Theorem trace_resistance_effect (trace : Trace) (w : world)
    (mlist : list Material) (m : Material) (plotcolor title : string) :
  pint.dimensionless (pint.units (squares trace)) ->
  nonzero_thickness trace_resistance_thlist mlist ->
  last mlist = Some m ->
  exists w' x y,
    Plot2D_trace_resistance trace (Some mlist) plotcolor title w
    = (Ok tt, w') /\
    begin (self w') = false /\
    scattered (ax (self w')) = scattered (ax (self w)) ++ [(x, y)] /\
    List.length x = (8 * metals_in mlist + 20 * others_in mlist)%nat /\
    List.length y = List.length x /\
    List.length (printed_since w w')
    = (16 * metals_in mlist + if decide (cat m = metal) then 0 else 1)%nat.
Proof.
  intros Hd _ Hlast.
  destruct (trace_resistance_begin_state title w)
    as (w1 & Eb & Hout & Hbeg & Hs & _).
  set (pts := flat_map (trace_resistance_points trace) mlist).
  set (population := flat_map (trace_resistance_values trace) mlist).
  assert (Hsum : exists stats,
    trace_resistance_summary m population
      (emit (flat_map (trace_resistance_prints trace) mlist) w1)
    = (Ok tt, emit (flat_map (trace_resistance_prints trace) mlist ++ stats)
                   w1) /\
    List.length stats = if decide (cat m = metal) then 0%nat else 1%nat).
  { destruct (decide (cat m = metal)) as [Hm|Hm].
    - exists []. rewrite trace_resistance_summary_metal by exact Hm.
      by rewrite app_nil_r.
    - destruct (statistics_defined population)
        as (a & s & lo & hi & Ea & Es & Elo & Ehi).
      { by apply (population_two trace mlist m). }
      exists [print_stats (Catname (cat m)) a s lo hi].
      rewrite (trace_resistance_summary_other m population _ a s lo hi)
        by assumption.
      by rewrite emit_emit. }
  destruct Hsum as (stats & Esum & Hstats).
  exists (draw [ scatter (map fst pts) (map np_log10 population) plotcolor 64;
                 yaxis_set_ticks [-1; 0; 1; 2; 3; 4; 5; 6];
                 set_yticklabels
                   [ tick_num 0.1; tick_num 1; tick_num 10; tick_num 100;
                     tick_str "1K"; tick_str "10K"; tick_str "100K";
                     tick_str "1M" ] ]
               (emit (flat_map (trace_resistance_prints trace) mlist ++ stats)
                     w1)),
         (map fst pts), (map np_log10 population).
  split.
  { unfold Plot2D_trace_resistance. unfold bind at 1. rewrite Eb.
    unfold bind at 1.
    rewrite (trace_resistance_loop_appends trace Hd).
    cbn [push3 fst snd app].
    rewrite (map_flat_map snd (trace_resistance_points trace)).
    fold pts.
    change (flat_map (fun a => map snd (trace_resistance_points trace a))
                     mlist) with population.
    unfold bind at 1. unfold loop_variable. rewrite Hlast.
    unfold ret at 1. unfold bind at 1. rewrite Esum. reflexivity. }
  split; [exact Hbeg|]. split.
  { cbn. rewrite scattered_app, Hs. reflexivity. }
  rewrite !List.length_map. unfold pts.
  rewrite length_trace_resistance_points.
  split; [reflexivity|]. split.
  { unfold population, trace_resistance_values.
    rewrite <- (map_flat_map snd (trace_resistance_points trace)).
    rewrite List.length_map. apply length_trace_resistance_points. }
  unfold printed_since. cbn [stdout draw emit]. rewrite Hout.
  rewrite drop_app_length, List.length_app, Hstats.
  by rewrite length_trace_resistance_prints.
Qed.

Lemma trace_resistance_effect_witness :
  exists m w' x y,
    last bycopper = Some m /\
    Plot2D_trace_resistance heater_trace (Some bycopper) "gold" "t"
      a_fresh_world = (Ok tt, w') /\
    scattered (ax (self w')) = scattered (ax (self a_fresh_world)) ++ [(x, y)].
Proof.
  assert (exists m, last bycopper = Some m) as [m Hm]
    by (eexists; vm_compute; reflexivity).
  destruct (trace_resistance_effect heater_trace a_fresh_world bycopper m
              "gold" "t") as (w' & x & y & E & _ & Hs & _).
  - split; reflexivity.
  - apply nonzero_thicknessb_spec. vm_compute. reflexivity.
  - exact Hm.
  - exists m, w', x, y. split; [exact Hm|]. split; [exact E|exact Hs].
Defined.

Lemma length_trace_resistance_vs_width_points (trace : Trace)
    (mlist : list Material) :
  List.length (flat_map (trace_resistance_vs_width_points trace) mlist)
  = (20 * List.length mlist)%nat.
Proof.
  rewrite (length_flat_map_const _ 20); [lia|].
  intros m. unfold trace_resistance_vs_width_points.
  rewrite (length_sweep _ _ 1) by reflexivity.
  unfold trace_resistance_vs_width_thlist.
  rewrite length_divide_interval. reflexivity.
Qed.

Lemma trace_resistance_vs_width_points_x (trace : Trace)
    (mlist : list Material) (p : Q * Q) :
  In p (flat_map (trace_resistance_vs_width_points trace) mlist) ->
  fst p = pint.magnitude (trace_width trace).
Proof.
  intros H. apply in_flat_map in H as (m & _ & H).
  unfold trace_resistance_vs_width_points, sweep in H.
  apply in_flat_map in H as (br & _ & H).
  apply in_flat_map in H as (th & _ & H).
  destruct H as [<-|[]]. reflexivity.
Qed.

(** X21: with a trace whose squares are a pure number, the
    trace-resistance-vs-width call returns normally for every list and
    prints nothing.  It scatters one series of 20 points for each
    material, metal or not, and every point of the series has the width
    of the trace as x. *)
Theorem trace_resistance_vs_width_effect (trace : Trace) (w : world)
    (mlist : list Material) (plotcolor title : string) :
  pint.dimensionless (pint.units (squares trace)) ->
  exists w' x y,
    Plot2D_trace_resistance_vs_width trace (Some mlist) plotcolor title w
    = (Ok tt, w') /\
    begin (self w') = false /\
    stdout w' = stdout w /\
    scattered (ax (self w')) = scattered (ax (self w)) ++ [(x, y)] /\
    List.length x = (20 * List.length mlist)%nat /\
    List.length y = List.length x /\
    Forall (fun v => v = pint.magnitude (trace_width trace)) x.
Proof.
  intros Hd.
  destruct (trace_resistance_vs_width_begin_state title w)
    as (w1 & Eb & Hout & Hbeg & Hs & _).
  set (pts := flat_map (trace_resistance_vs_width_points trace) mlist).
  exists (draw [ set_xscale "log";
                 scatter (map fst pts) (map np_log10 (map snd pts))
                         plotcolor 64;
                 yaxis_set_ticks [1; 2; 3; 4; 5; 6];
                 set_yticklabels
                   [ tick_num 10; tick_num 100; tick_str "1K";
                     tick_str "10K"; tick_str "100K"; tick_str "1M" ] ] w1),
         (map fst pts), (map np_log10 (map snd pts)).
  split.
  { unfold Plot2D_trace_resistance_vs_width. unfold bind at 1. rewrite Eb.
    unfold bind at 1.
    rewrite (trace_resistance_vs_width_loop_appends trace Hd).
    reflexivity. }
  split; [exact Hbeg|]. split; [exact Hout|]. split.
  { cbn. rewrite scattered_app, Hs. reflexivity. }
  rewrite !List.length_map. unfold pts.
  rewrite length_trace_resistance_vs_width_points.
  split; [reflexivity|]. split; [reflexivity|].
  apply List.Forall_forall. intros v Hv.
  apply in_map_iff in Hv as (p & <- & Hp).
  by apply (trace_resistance_vs_width_points_x trace mlist).
Qed.

Lemma trace_resistance_vs_width_effect_witness :
  exists w' x y,
    Plot2D_trace_resistance_vs_width heater_trace (Some bycarbon) "gray" "t"
      a_fresh_world = (Ok tt, w') /\
    begin (self w') = false /\
    stdout w' = stdout a_fresh_world /\
    scattered (ax (self w')) = scattered (ax (self a_fresh_world)) ++ [(x, y)] /\
    List.length x = (20 * List.length bycarbon)%nat /\
    List.length y = List.length x /\
    Forall (fun v => v = pint.magnitude (trace_width heater_trace)) x.
Proof.
  apply (trace_resistance_vs_width_effect heater_trace a_fresh_world bycarbon
           "gray" "t").
  split; reflexivity.
Defined.

(** ** Calls without a list *)

(** X22: called with None instead of a list, the thickness, the
    trace-resistance and the trace-resistance-vs-width calls only do the
    pending setup: they return normally for every trace, leave the setup
    done, and neither scatter nor print; so does the sheet-resistance
    call when its units string is valid. *)
Theorem calls_without_list (trace : Trace) (w : world)
    (plotcolor title units : string) :
  let quiet (out : result unit * world) :=
    fst out = Ok tt /\ begin (self (snd out)) = false /\
    stdout (snd out) = stdout w /\
    scattered (ax (self (snd out))) = scattered (ax (self w)) in
  quiet (Plot2D_thickness None plotcolor w) /\
  quiet (Plot2D_trace_resistance trace None plotcolor title w) /\
  quiet (Plot2D_trace_resistance_vs_width trace None plotcolor title w) /\
  (valid_units units -> quiet (Plot2D_sheet_resistance None plotcolor units w)).
Proof.
  intros quiet. unfold quiet. split; [|split; [|split]].
  - destruct (thickness_begin_state w) as (w1 & Eb & Hout & Hbeg & Hs & _).
    unfold Plot2D_thickness, bind. by rewrite Eb.
  - destruct (trace_resistance_begin_state title w)
      as (w1 & Eb & Hout & Hbeg & Hs & _).
    unfold Plot2D_trace_resistance, bind. by rewrite Eb.
  - destruct (trace_resistance_vs_width_begin_state title w)
      as (w1 & Eb & Hout & Hbeg & Hs & _).
    unfold Plot2D_trace_resistance_vs_width, bind. by rewrite Eb.
  - intros Hu.
    destruct (sheet_resistance_begin_valid_state units w Hu)
      as (w1 & Eb & Hout & Hbeg & Hs & _).
    unfold Plot2D_sheet_resistance, bind. by rewrite Eb.
Qed.

Lemma calls_without_list_witness :
  fst (Plot2D_sheet_resistance None "gold" units_mOhms a_fresh_world) = Ok tt.
Proof.
  apply (proj2 (proj2 (proj2 (calls_without_list heater_trace a_fresh_world
                                "gold" "t" units_mOhms)))).
  left. reflexivity.
Defined.

(** ** Traces built from a length and a width *)

Lemma Trace_fields_dimensionless (l wd t : pint.Quantity) :
  pint.same_dimension (pint.units l) (pint.units wd) = true ->
  pint.dimensionless (pint.units (squares (Trace_fields l wd t))).
Proof.
  intros H. unfold pint.same_dimension in H.
  apply andb_true_iff in H as [H1 H2]. apply Z.eqb_eq in H1, H2.
  split; cbn; lia.
Qed.

(** X24: [Trace.__init__] raises ZeroDivisionError for a zero width.
    For a width that is not zero and of the dimension of the length it
    returns a trace that always has a resistance: for a thickness that
    is not zero, the sheet resistance times length over width, with the
    two unit factors, in Ohm. *)
Theorem Trace_init_resistance (l wd t : pint.Quantity) (br th : Q) :
  (pint.magnitude wd == 0 -> Trace_init l wd t = Raised ZeroDivisionError) /\
  (~ pint.magnitude wd == 0 ->
   pint.same_dimension (pint.units l) (pint.units wd) = true ->
   ~ th == 0 ->
   exists trace tr,
     Trace_init l wd t = Ok trace /\
     calc_tr trace br th = Ok tr /\
     pint.magnitude tr
     == 10 * (br / th) * (pint.magnitude l / pint.magnitude wd)
        * (pint.factor (pint.units l) / pint.factor (pint.units wd)) / 1000).
Proof.
  unfold Trace_init. split.
  - intros E. apply Qeq_bool_iff in E. by rewrite E.
  - intros Hw Hdim Hth.
    destruct (Qeq_bool (pint.magnitude wd) 0) eqn:E.
    { apply Qeq_bool_iff in E. contradiction. }
    destruct (calc_tr_formula (Trace_fields l wd t) br th
                (Trace_fields_dimensionless l wd t Hdim))
      as (tr & Etr & _ & Hm).
    exists (Trace_fields l wd t), tr. split; [reflexivity|].
    split; [exact Etr|exact Hm].
Qed.

Lemma Trace_init_resistance_witness :
  Trace_init (pint.of_unit 2 pint.inch) (pint.of_unit 0 pint.cm)
             (pint.of_unit 1.4 pint.milliinch) = Raised ZeroDivisionError /\
  exists trace tr,
    Trace_init (pint.of_unit 2 pint.inch) (pint.of_unit 1 pint.cm)
               (pint.of_unit 1.4 pint.milliinch) = Ok trace /\
    calc_tr trace 1.70 34.8 = Ok tr /\
    pint.magnitude tr
    == 10 * (1.70 / 34.8) * (2 / 1) * ((254 # 10000) / (1 # 100)) / 1000.
Proof.
  split.
  - apply (proj1 (Trace_init_resistance (pint.of_unit 2 pint.inch)
                    (pint.of_unit 0 pint.cm) (pint.of_unit 1.4 pint.milliinch)
                    1.70 34.8)).
    reflexivity.
  - apply (proj2 (Trace_init_resistance (pint.of_unit 2 pint.inch)
                    (pint.of_unit 1 pint.cm) (pint.of_unit 1.4 pint.milliinch)
                    1.70 34.8)).
    + intros E. discriminate E.
    + reflexivity.
    + intros E. discriminate E.
Defined.

(** The traces the scenarios build are what the constructor returns. *)
Lemma named_traces_init :
  Trace_init (pint.of_unit 3 pint.inch) (pint.of_unit 8 pint.milliinch)
             (pint.of_unit 1.4 pint.milliinch) = Ok signal_trace /\
  Trace_init (pint.of_unit 2 pint.inch) (pint.of_unit 100 pint.milliinch)
             (pint.of_unit 1.4 pint.milliinch) = Ok power_trace /\
  Trace_init (pint.of_unit 2 pint.inch) (pint.of_unit 1 pint.cm)
             (pint.of_unit 1.4 pint.milliinch) = Ok heater_trace.
Proof. repeat split; reflexivity. Qed.

(** ** Positive data give finite logarithms *)

Lemma sr_magnitude_value (br th : Q) : sr_magnitude br th == 10 * (br / th).
Proof.
  destruct (calc_sr_ok br th) as (sr & E & H).
  rewrite calc_sr_magnitude in E. injection E as <-. exact H.
Qed.

Lemma sr_in_units_positive (units : string) (br th : Q) :
  0 < br -> 0 < th -> 0 < sr_in_units units br th.
Proof.
  intros Hb Ht.
  assert (H : 0 < sr_magnitude br th).
  { rewrite sr_magnitude_value.
    assert (0 < br / th) by (apply Qlt_shift_div_l; lra). lra. }
  unfold sr_in_units. destruct (String.eqb units units_mOhms); [exact H|].
  apply Qlt_shift_div_l; [reflexivity|lra].
Qed.

Lemma positive_datab_spec (m : Material) :
  positive_datab m = true -> positive_data m.
Proof.
  unfold positive_datab, positive_data.
  rewrite !andb_true_iff, !negb_true_iff.
  intros [[[H1 H2] H3] H4]. apply Qle_bool_iff in H4.
  repeat split; try exact H4; apply Qnot_le_lt; intros H;
    apply Qle_bool_iff in H; congruence.
Qed.

Lemma sheet_resistance_thlist_positive (m : Material) (th : Q) :
  positive_data m -> In th (sheet_resistance_thlist m) -> 0 < th.
Proof.
  intros (_ & _ & Hpos & Hle) Hin. unfold sheet_resistance_thlist in Hin.
  destruct (decide (cat m = metal)).
  - cbn in Hin. destruct Hin as [<-|[<-|[<-|[<-|[]]]]]; reflexivity.
  - apply list_elem_of_In, list_elem_of_lookup in Hin as [i Hi].
    destruct (divide_interval_bounded _ _ _ _ Hle Hi) as [Hlo _]. lra.
Qed.

Lemma np_log10_positive (v : Q) : 0 < v -> np_log10 v = log10_of v.
Proof.
  intros H. unfold np_log10.
  destruct (Qle_bool v 0) eqn:E; [|reflexivity].
  apply Qle_bool_iff in E. lra.
Qed.

Lemma np_log10_all_positive (l : list Q) :
  Forall (fun v => 0 < v) l -> map np_log10 l = map log10_of l.
Proof.
  induction 1 as [|v l Hv _ IH]; [reflexivity|].
  cbn [map]. by rewrite IH, np_log10_positive.
Qed.

Lemma sheet_resistance_points_positive (units : string)
    (mlist : list Material) (p : Q * Q) :
  Forall positive_data mlist ->
  In p (flat_map (sheet_resistance_points units) mlist) -> 0 < snd p.
Proof.
  intros Hall H. apply in_flat_map in H as (m & Hm & H).
  assert (Hp : positive_data m).
  { rewrite List.Forall_forall in Hall. by apply Hall. }
  unfold sheet_resistance_points, sweep in H.
  apply in_flat_map in H as (br & Hbr & H).
  apply in_flat_map in H as (th & Hth & H).
  destruct H as [<-|[]]. cbn [snd].
  apply sr_in_units_positive.
  - destruct Hp as (H1 & H2 & _).
    destruct Hbr as [<-|[<-|[]]]; assumption.
  - by apply (sheet_resistance_thlist_positive m).
Qed.

(** X26: when every material of the list has positive bulk
    resistivities and a positive thickness interval with min <= max, and
    the units string is valid, every sheet resistance the call derives
    is positive, so every value it scatters is the logarithm of a
    positive number: neither -inf nor NaN is plotted.  The whole catalog
    is such a list. *)
Theorem sheet_resistance_finite_logs (w : world) (mlist : list Material)
    (plotcolor units : string) :
  valid_units units ->
  Forall positive_data mlist ->
  exists w' x ys,
    Plot2D_sheet_resistance (Some mlist) plotcolor units w = (Ok tt, w') /\
    scattered (ax (self w'))
    = scattered (ax (self w)) ++ [(x, map log10_of ys)] /\
    Forall (fun v => 0 < v) ys.
Proof.
  intros Hu Hall.
  destruct (sheet_resistance_valid_units w mlist plotcolor units Hu)
    as (w' & E & Hs).
  set (pts := flat_map (sheet_resistance_points units) mlist) in *.
  assert (Hpos : Forall (fun v => 0 < v) (map snd pts)).
  { apply List.Forall_forall. intros v Hv.
    apply in_map_iff in Hv as (p & <- & Hp).
    by apply (sheet_resistance_points_positive units mlist). }
  exists w', (map fst pts), (map snd pts).
  split; [exact E|]. split; [|exact Hpos].
  rewrite Hs. by rewrite (np_log10_all_positive _ Hpos).
Qed.

Lemma catalog_positive_data : Forall positive_data matls.
Proof.
  apply List.Forall_forall. intros m Hm. apply positive_datab_spec.
  revert m Hm. apply forallb_forall. vm_compute. reflexivity.
Qed.

Lemma sheet_resistance_finite_logs_witness :
  exists w' x ys,
    Plot2D_sheet_resistance (Some matls) "black" units_mOhms a_fresh_world
    = (Ok tt, w') /\
    scattered (ax (self w'))
    = scattered (ax (self a_fresh_world)) ++ [(x, map log10_of ys)] /\
    Forall (fun v => 0 < v) ys.
Proof.
  apply (sheet_resistance_finite_logs a_fresh_world matls "black"
           units_mOhms).
  - left. reflexivity.
  - apply List.Forall_forall. intros m Hm. apply positive_datab_spec.
    revert m Hm. apply forallb_forall. vm_compute. reflexivity.
Defined.

(** A positive thickness interval in order has no zero sample, in the
    sweeps that take the PCB weights for metals. *)
Lemma positive_data_nonzero_thickness (mlist : list Material) :
  Forall positive_data mlist ->
  nonzero_thickness sheet_resistance_thlist mlist /\
  nonzero_thickness trace_resistance_thlist mlist.
Proof.
  intros Hall.
  assert (H : nonzero_thickness sheet_resistance_thlist mlist).
  { unfold nonzero_thickness. apply List.Forall_forall. intros m Hm.
    apply List.Forall_forall. intros th Hth E.
    rewrite List.Forall_forall in Hall.
    pose proof (sheet_resistance_thlist_positive m th (Hall m Hm) Hth). lra. }
  split; [exact H|exact H].
Qed.
